(** * Expense tracker: aggregation, validation, currency parsing, CSV export,
      local storage and the page's handlers

    A shallow embedding of the logic of the expense tracker
    (utils/calculations.ts, utils/currency.ts, utils/export.ts,
    components/ExportModal.tsx, components/ExportHub.tsx, lib/storage.ts,
    app/page.tsx) together with the properties its specification states
    about it and further properties read off the code.

    JavaScript numbers are IEEE-754 binary64 values; they are embedded as
    Rocq's primitive [float]s, whose operations are the same binary64
    operations (round to nearest, ties to even; a single NaN).  Strings are
    byte strings (UTF-8): every character the code inspects is ASCII, and a
    non-ASCII character is a run of bytes above 127. *)

From Stdlib Require Import ZArith Lia Bool List String Ascii.
From Stdlib Require Import Floats Uint63.
From stdpp Require Import base option list strings gmap.
Import ListNotations.

#[local] Set Warnings "-inexact-float".

(** ** JavaScript numbers *)

(** The aggregation code only adds numbers, compares them with [>] and starts
    from the literal [0].  It is written once over this interface; the
    program is its instance at binary64 floats ([jsNumber]). *)
Class Number (num : Type) := {
  zero : num;
  add : num -> num -> num;
  gt : num -> num -> bool
}.

#[export] Instance jsNumber : Number float := {|
  zero := 0%float;
  add := PrimFloat.add;
  gt := fun x y => PrimFloat.ltb y x
|}.

(** ** Data model (types/expense.ts) *)

Inductive ExpenseCategory :=
  Food | Transportation | Entertainment | Shopping | Bills | Other.

#[export] Instance ExpenseCategory_eq_dec : EqDecision ExpenseCategory.
Proof. solve_decision. Defined.

Record Expense (num : Type) := mkExpense {
  id : string;
  date : string;
  amount : num;
  category : ExpenseCategory;
  description : string;
  createdAt : string;
  updatedAt : string
}.
Arguments mkExpense {num}.
Arguments id {num}.
Arguments date {num}.
Arguments amount {num}.
Arguments category {num}.
Arguments description {num}.
Arguments createdAt {num}.
Arguments updatedAt {num}.

(** [Record<ExpenseCategory, number>]: an object with exactly the six keys,
    created by a literal that lists them in this order. *)
Record CategoryBreakdown (num : Type) := mkBreakdown {
  food : num;
  transportation : num;
  entertainment : num;
  shopping : num;
  bills : num;
  other : num
}.
Arguments mkBreakdown {num}.
Arguments food {num}.
Arguments transportation {num}.
Arguments entertainment {num}.
Arguments shopping {num}.
Arguments bills {num}.
Arguments other {num}.

Record SpendingSummary (num : Type) := mkSummary {
  totalSpending : num;
  monthlySpending : num;
  categoryBreakdown : CategoryBreakdown num;
  topCategory : option (ExpenseCategory * num)
}.
Arguments mkSummary {num}.
Arguments totalSpending {num}.
Arguments monthlySpending {num}.
Arguments categoryBreakdown {num}.
Arguments topCategory {num}.

(** [Object.keys(categoryBreakdown)]: string keys come back in insertion
    order, which is the order of the literal. *)
Definition categoryKeys : list ExpenseCategory :=
  [Food; Transportation; Entertainment; Shopping; Bills; Other].

Definition categoryIndex (c : ExpenseCategory) : nat :=
  match c with
  | Food => 0 | Transportation => 1 | Entertainment => 2
  | Shopping => 3 | Bills => 4 | Other => 5
  end.

(** [categoryBreakdown[c]] *)
Definition bucket {num} (b : CategoryBreakdown num) (c : ExpenseCategory) : num :=
  match c with
  | Food => food b
  | Transportation => transportation b
  | Entertainment => entertainment b
  | Shopping => shopping b
  | Bills => bills b
  | Other => other b
  end.

(** [categoryBreakdown[c] = v] *)
Definition setBucket {num} (b : CategoryBreakdown num) (c : ExpenseCategory)
    (v : num) : CategoryBreakdown num :=
  match c with
  | Food => mkBreakdown v (transportation b) (entertainment b) (shopping b) (bills b) (other b)
  | Transportation => mkBreakdown (food b) v (entertainment b) (shopping b) (bills b) (other b)
  | Entertainment => mkBreakdown (food b) (transportation b) v (shopping b) (bills b) (other b)
  | Shopping => mkBreakdown (food b) (transportation b) (entertainment b) v (bills b) (other b)
  | Bills => mkBreakdown (food b) (transportation b) (entertainment b) (shopping b) v (other b)
  | Other => mkBreakdown (food b) (transportation b) (entertainment b) (shopping b) (bills b) v
  end.

(** ** Aggregation (utils/calculations.ts) *)

Section Calculations.
Context {num : Type} `{Number num}.

(** [isWithinInterval(new Date(d), { start: startOfMonth(now), end:
    endOfMonth(now) })] for the clock value [now] read at the call: the
    date library and the clock are the environment's. *)
Variable isWithinCurrentMonth : string -> bool.

(** [expenses.reduce((sum, expense) => sum + expense.amount, 0)] *)
Definition sumAmounts (expenses : list (Expense num)) : num :=
  fold_left (fun sum expense => add sum (amount expense)) expenses zero.

Definition emptyBreakdown : CategoryBreakdown num :=
  mkBreakdown zero zero zero zero zero zero.

(** [categoryBreakdown[expense.category] += expense.amount] *)
Definition addToBucket (b : CategoryBreakdown num) (expense : Expense num)
    : CategoryBreakdown num :=
  setBucket b (category expense)
    (add (bucket b (category expense)) (amount expense)).

Definition breakdownOf (expenses : list (Expense num)) : CategoryBreakdown num :=
  fold_left addToBucket expenses emptyBreakdown.

(** One iteration of the [forEach] over the keys; the state is
    [(topCategory, maxAmount)]. *)
Definition scanStep (b : CategoryBreakdown num)
    (st : option (ExpenseCategory * num) * num) (c : ExpenseCategory)
    : option (ExpenseCategory * num) * num :=
  if gt (bucket b c) (snd st)
  then (Some (c, bucket b c), bucket b c)
  else st.

Definition findTopCategory (b : CategoryBreakdown num)
    : option (ExpenseCategory * num) :=
  fst (fold_left (scanStep b) categoryKeys (None, zero)).

Definition calculateSpendingSummary (expenses : list (Expense num))
    : SpendingSummary num :=
  let totalSpending := sumAmounts expenses in
  let monthlySpending :=
    sumAmounts
      (List.filter (fun expense => isWithinCurrentMonth (date expense)) expenses) in
  let categoryBreakdown := breakdownOf expenses in
  mkSummary totalSpending monthlySpending categoryBreakdown
    (findTopCategory categoryBreakdown).

(** [Object.values(categoryBreakdown).reduce((s, v) => s + v, 0)]: the six
    bucket values added in key order. *)
Definition sumBuckets (b : CategoryBreakdown num) : num :=
  fold_left (fun s c => add s (bucket b c)) categoryKeys zero.

End Calculations.

(** What holds of the state [(topCategory, maxAmount)] once the first [k]
    keys have been visited. *)
Record ScanInv (b : CategoryBreakdown float) (k : nat)
    (st : option (ExpenseCategory * float) * float) : Prop := {
  inv_none : st.1 = None -> st.2 = 0%float;
  inv_some : forall c a, st.1 = Some (c, a) ->
    a = st.2 /\ bucket b c = a /\ categoryIndex c < k /\
    PrimFloat.ltb 0 a = true /\
    forall c', categoryIndex c' < categoryIndex c ->
      PrimFloat.ltb (bucket b c') a = true \/ bucket b c' = nan;
  inv_max : forall c', categoryIndex c' < k ->
    PrimFloat.ltb st.2 (bucket b c') = false
}.

(** *** Vocabulary of the properties: additions that do not round *)

(** A finite binary64 value as an integer number of units of 2^-1074, the
    spacing of the smallest values: every finite value is such an integer.
    [None] for NaN and the infinities. *)
Definition units (x : float) : option Z :=
  match Prim2SF x with
  | S754_zero _ => Some 0%Z
  | S754_finite s m e => Some (cond_Zopp s (Zpos m * 2 ^ (e + 1074)))%Z
  | _ => None
  end.

Definition unitsOf (x : float) : Z := default 0%Z (units x).

(** [x + y] on finite numbers gives their sum exactly: nothing is rounded
    away and nothing overflows. *)
Definition exactAdd (x y : float) : bool :=
  match units x, units y, units (x + y) with
  | Some a, Some b, Some c => (c =? a + b)%Z
  | _, _, _ => false
  end.

(** Every addition of [l.reduce((s, v) => s + v, acc)] is exact. *)
Fixpoint exactSum (acc : float) (l : list float) : bool :=
  match l with
  | [] => true
  | a :: l' => exactAdd acc a && exactSum (acc + a) l'
  end.

(** No addition that [calculateSpendingSummary] performs for
    [totalSpending] or for a bucket rounds, and neither does an addition of
    the six bucket values in key order. *)
Definition noRounding (expenses : list (Expense float)) : bool :=
  exactSum 0 (List.map amount expenses)
  && forallb (fun c =>
                exactSum 0
                  (List.map amount
                     (List.filter (fun expense => bool_decide (category expense = c))
                        expenses)))
       categoryKeys
  && exactSum 0 (List.map (bucket (breakdownOf expenses)) categoryKeys).

(** Four amounts that binary64 adds without rounding, in three
    categories. *)
Definition exactAmounts : list (Expense float) :=
  [mkExpense "1" "2024-01-15" 50%float Food "groceries" "t1" "t1";
   mkExpense "2" "2024-01-16" 100%float Transportation "fuel" "t2" "t2";
   mkExpense "3" "2024-01-17" 75.25%float Food "restaurant" "t3" "t3";
   mkExpense "4" "2020-01-01" 200%float Bills "electricity" "t4" "t4"]%string.

(** ** Currency parsing (utils/currency.ts) *)

Module Currency.
Local Open Scope string_scope.

Definition isDigit (c : ascii) : bool :=
  (48 <=? nat_of_ascii c)%nat && (nat_of_ascii c <=? 57)%nat.

Definition digitValue (c : ascii) : Z := Z.of_nat (nat_of_ascii c) - 48.

(** The class [[^\d.]] negated: the characters [replace] keeps. *)
Definition isDigitOrDot (c : ascii) : bool := isDigit c || Ascii.eqb c ".".

(** [value.replace(/[^\d.]/g, '')]: every character outside [0-9.] is
    deleted, the others stay in order. *)
Fixpoint stripNonNumeric (value : string) : string :=
  match value with
  | EmptyString => EmptyString
  | String c rest =>
      if isDigitOrDot c then String c (stripNonNumeric rest)
      else stripNonNumeric rest
  end.

(** *** The builtin [parseFloat] (ECMA-262, 19.2.4)

    [parseFloat] trims leading white space, takes the longest prefix that is
    a [StrDecimalLiteral] and returns the Number value of its mathematical
    value, or NaN when no prefix is one. *)

(** A recognised literal: [digits * 10 ^ exponent], signed. *)
Inductive StrDecimalLiteral :=
| LitInfinity (negative : bool)
| LitDecimal (negative : bool) (digits : Z) (exponent : Z).

(** The decimal digits at the front of [s], and what follows them. *)
Fixpoint spanDigits (s : string) : string * string :=
  match s with
  | String c rest =>
      if isDigit c then
        let '(ds, rest') := spanDigits rest in (String c ds, rest')
      else (EmptyString, s)
  | EmptyString => (EmptyString, EmptyString)
  end.

(** The value of a digit string, most significant digit first. *)
Fixpoint digitsValue (acc : Z) (ds : string) : Z :=
  match ds with
  | EmptyString => acc
  | String c rest => digitsValue (10 * acc + digitValue c) rest
  end.

(** [WhiteSpace] and [LineTerminator] code points, in UTF-8: TAB, LF, VT, FF,
    CR, SP; U+00A0; U+1680; U+2000..U+200A, U+2028, U+2029, U+202F; U+205F;
    U+3000; U+FEFF. *)
Fixpoint skipWhiteSpace (s : string) : string :=
  match s with
  | String c1 r1 =>
      let n1 := nat_of_ascii c1 in
      if ((9 <=? n1) && (n1 <=? 13) || (n1 =? 32))%nat then skipWhiteSpace r1
      else
        match r1 with
        | String c2 r2 =>
            let n2 := nat_of_ascii c2 in
            if ((n1 =? 194) && (n2 =? 160))%nat then skipWhiteSpace r2
            else
              match r2 with
              | String c3 r3 =>
                  let n3 := nat_of_ascii c3 in
                  if ((n1 =? 225) && (n2 =? 154) && (n3 =? 128)
                      || (n1 =? 226) && (n2 =? 128)
                         && ((128 <=? n3) && (n3 <=? 138) || (n3 =? 168)
                             || (n3 =? 169) || (n3 =? 175))
                      || (n1 =? 226) && (n2 =? 129) && (n3 =? 159)
                      || (n1 =? 227) && (n2 =? 128) && (n3 =? 128)
                      || (n1 =? 239) && (n2 =? 187) && (n3 =? 191))%nat
                  then skipWhiteSpace r3
                  else s
              | EmptyString => s
              end
        | EmptyString => s
        end
  | EmptyString => s
  end.

(** [ExponentPart], when one follows: [e] or [E], an optional sign and at
    least one digit; otherwise the exponent is 0. *)
Definition exponentPart (s : string) : Z :=
  match s with
  | String c rest =>
      if Ascii.eqb c "e" || Ascii.eqb c "E" then
        let '(negative, rest') :=
          match rest with
          | String s' r =>
              if Ascii.eqb s' "-" then (true, r)
              else if Ascii.eqb s' "+" then (false, r)
              else (false, rest)
          | EmptyString => (false, rest)
          end in
        let ds := fst (spanDigits rest') in
        match ds with
        | EmptyString => 0
        | _ => if negative then - digitsValue 0 ds else digitsValue 0 ds
        end
      else 0
  | EmptyString => 0
  end.

(** [StrUnsignedDecimalLiteral]: [Infinity], [digits], [digits.],
    [digits.digits] or [.digits], each of the last four with an optional
    exponent part. *)
Definition strUnsignedDecimalLiteral (negative : bool) (s : string)
    : option StrDecimalLiteral :=
  if String.prefix "Infinity" s then Some (LitInfinity negative)
  else
    let '(intDigits, rest) := spanDigits s in
    let '(fracDigits, rest') :=
      match rest with
      | String c r => if Ascii.eqb c "." then spanDigits r else (EmptyString, rest)
      | EmptyString => (EmptyString, rest)
      end in
    match intDigits, fracDigits with
    | EmptyString, EmptyString => None
    | _, _ =>
        Some (LitDecimal negative
                (digitsValue 0 (intDigits ++ fracDigits))
                (exponentPart rest' - Z.of_nat (String.length fracDigits)))
    end.

Definition strDecimalLiteral (s : string) : option StrDecimalLiteral :=
  match s with
  | String c rest =>
      if Ascii.eqb c "-" then strUnsignedDecimalLiteral true rest
      else if Ascii.eqb c "+" then strUnsignedDecimalLiteral false rest
      else strUnsignedDecimalLiteral false s
  | EmptyString => None
  end.

(** The binary64 value nearest to [digits * 10 ^ exponent] (ties to even),
    by the division and rounding of the IEEE-754 specification. *)
Definition roundDecimal (negative : bool) (digits exponent : Z) : spec_float :=
  let '(n, d) :=
    if (0 <=? exponent)%Z then (digits * 10 ^ exponent, 1)%Z
    else (digits, 10 ^ (- exponent))%Z in
  let '(q, e, l) := SFdiv_core_binary prec emax n 0 d 0 in
  binary_round_aux prec emax negative q e l.

(** The Number value of a literal. *)
Definition toNumber (lit : StrDecimalLiteral) : float :=
  match lit with
  | LitInfinity false => infinity
  | LitInfinity true => neg_infinity
  | LitDecimal negative digits exponent =>
      SF2Prim (roundDecimal negative digits exponent)
  end.

Definition parseFloat (s : string) : float :=
  match strDecimalLiteral (skipWhiteSpace s) with
  | Some lit => toNumber lit
  | None => nan
  end.

(** [isNaN] on a number. *)
Definition isNaN (x : float) : bool := PrimFloat.is_nan x.

Definition parseCurrency (value : string) : float :=
  let cleaned := stripNonNumeric value in
  let parsed := parseFloat cleaned in
  if isNaN parsed then 0%float else parsed.

(** *** Vocabulary of the properties *)

(** Zero, a positive finite number or positive infinity. *)
Definition nonNegative (x : spec_float) : Prop :=
  match x with
  | S754_zero false | S754_infinity false | S754_finite false _ _ => True
  | _ => False
  end.

(** Every character of [s] satisfies [p]. *)
Fixpoint allOf (p : ascii -> bool) (s : string) : bool :=
  match s with
  | EmptyString => true
  | String c rest => p c && allOf p rest
  end.

(** A literal without sign whose digits make a non-negative integer. *)
Definition unsignedFinite (lit : StrDecimalLiteral) : Prop :=
  match lit with
  | LitDecimal false digits _ => (0 <= digits)%Z
  | _ => False
  end.

End Currency.

(** ** Form validation (utils/validation.ts) *)

Module Validation.
Import Currency.
Local Open Scope string_scope.

(** [ExpenseFormData]: every field is the text of a form control. *)
Record ExpenseFormData := mkFormData {
  date : string;
  amount : string;
  category : string;
  description : string
}.

(** The error object, restricted to the two keys whose rules are modelled;
    [None] is an absent key. *)
Record ValidationErrors := mkErrors {
  errors_date : option string;
  errors_amount : option string
}.

Section Rules.

(** [new Date(s).getTime()] in milliseconds since the epoch, [None] for an
    invalid date. *)
Variable dateValue : string -> option Z.

(** The clock at the call, in the same unit. *)
Variable now : Z.

(** Modelled from the spec: utils/validation.ts, which defines
    validateExpenseForm, is not among the sources (only its tests and its
    caller are).  The date rule of section 4.1: empty gives "Date is
    required"; a date that parses to a moment strictly later than now gives
    "Date cannot be in the future"; otherwise the field is valid. *)
Definition validateDate (date : string) : option string :=
  if decide (date = "") then Some "Date is required"
  else
    match dateValue date with
    | Some t =>
        if (now <? t)%Z then Some "Date cannot be in the future" else None
    | None => None
    end.

(** Modelled from the spec: the amount rule of section 4.1 of the same
    missing function: empty gives "Amount is required"; not parseable as a
    number, or at most 0, gives "Amount must be a positive number"; more
    than 1,000,000 gives "Amount seems unreasonably large"; otherwise the
    field is valid.  Parsing is [parseFloat], which is what the form's
    caller applies to the validated amount. *)
Definition validateAmount (amount : string) : option string :=
  if decide (amount = "") then Some "Amount is required"
  else
    let value := parseFloat amount in
    if isNaN value || PrimFloat.leb value 0 then
      Some "Amount must be a positive number"
    else if PrimFloat.ltb 1000000 value then
      Some "Amount seems unreasonably large"
    else None.

(** Modelled from the spec: validateExpenseForm maps each failing field to
    its message; only the date and amount rules are modelled, the category
    and description rules do not interact with them. *)
Definition validateExpenseForm (formData : ExpenseFormData) : ValidationErrors :=
  mkErrors (validateDate (date formData)) (validateAmount (amount formData)).

End Rules.

(** Start of the UTC day that contains [now]: the instant a date-only ISO
    string for today denotes. *)
Definition startOfUtcDay (now : Z) : Z := (now - now mod 86400000)%Z.

End Validation.

(** ** CSV export (utils/export.ts, components/ExportModal.tsx) *)

Module CsvExport.
Local Open Scope string_scope.

Definition dquote : ascii := "034"%char.
Definition newline : string := String "010"%char EmptyString.

(** The category's string value. *)
Definition categoryName (c : ExpenseCategory) : string :=
  match c with
  | Food => "Food"
  | Transportation => "Transportation"
  | Entertainment => "Entertainment"
  | Shopping => "Shopping"
  | Bills => "Bills"
  | Other => "Other"
  end.

(** The [replace] of the description with the global pattern that matches
    one double quote: every double quote is written twice. *)
Fixpoint replaceQuotes (s : string) : string :=
  match s with
  | EmptyString => EmptyString
  | String c rest =>
      if Ascii.eqb c dquote then String dquote (String dquote (replaceQuotes rest))
      else String c (replaceQuotes rest)
  end.

(** The template literal both exports use for the description field: the
    replaced text between two double quotes. *)
Definition quoteDescription (description : string) : string :=
  String dquote (replaceQuotes description ++ String dquote EmptyString).

(** [Array.prototype.join] *)
Fixpoint join (sep : string) (items : list string) : string :=
  match items with
  | [] => EmptyString
  | [x] => x
  | x :: rest => x ++ sep ++ join sep rest
  end.

Section Formatting.

(** [Number.prototype.toString] and [toFixed(2)]: builtins. *)
Variable numberToString : float -> string.
Variable toFixed2 : float -> string.

(** date-fns [format(new Date(s), 'dd/MM/yyyy')] in the local time zone;
    [None] when it throws on an invalid date. *)
Variable formatDate : string -> option string.

(** ExportModal.tsx *)
Definition generateCSV (data : list (Expense float)) : string :=
  let headers := ["Date"; "Category"; "Amount"; "Description"] in
  let rows :=
    List.map (fun expense =>
      [date expense; categoryName (category expense);
       numberToString (amount expense);
       quoteDescription (description expense)]) data in
  join newline (join "," headers :: List.map (fun row => join "," row) rows).

(** One row of utils/export.ts; [None] when [format] throws. *)
Definition exportRow (expense : Expense float) : option string :=
  match formatDate (date expense) with
  | Some date =>
      let amount := toFixed2 (amount expense) in
      let description := quoteDescription (description expense) in
      Some (join "," [date; categoryName (category expense); amount; description])
  | None => None
  end.

(** utils/export.ts: the text of the downloaded blob; [None] when nothing is
    downloaded (the list is empty and the function returns after the alert,
    or [format] throws). *)
Definition exportToCSV (expenses : list (Expense float)) : option string :=
  if (List.length expenses =? 0)%nat then None
  else
    let headers := ["Date"; "Category"; "Amount (GBP)"; "Description"] in
    match mapM exportRow expenses with
    | Some rows => Some (join newline (join "," headers :: rows))
    | None => None
    end.

End Formatting.

(** *** An RFC 4180 reader for one field

    [field = escaped / non-escaped]; an escaped field is a double quote,
    then text in which a double quote is written twice, then a double quote.
    The reader returns the field's value and the unread input. *)

(** After the opening quote. *)
Fixpoint readEscaped (s : string) : option (string * string) :=
  match s with
  | EmptyString => None
  | String c rest =>
      if Ascii.eqb c dquote then
        match rest with
        | String c' rest' =>
            if Ascii.eqb c' dquote then
              match readEscaped rest' with
              | Some (value, unread) => Some (String dquote value, unread)
              | None => None
              end
            else Some (EmptyString, rest)
        | EmptyString => Some (EmptyString, EmptyString)
        end
      else
        match readEscaped rest with
        | Some (value, unread) => Some (String c value, unread)
        | None => None
        end
  end.

Definition isFieldEnd (c : ascii) : bool :=
  Ascii.eqb c "," || Ascii.eqb c "010" || Ascii.eqb c "013".

(** A non-escaped field runs up to the next comma or line break. *)
Fixpoint readNonEscaped (s : string) : string * string :=
  match s with
  | EmptyString => (EmptyString, EmptyString)
  | String c rest =>
      if isFieldEnd c then (EmptyString, s)
      else let '(value, unread) := readNonEscaped rest in (String c value, unread)
  end.

Definition readField (s : string) : option (string * string) :=
  match s with
  | String c rest =>
      if Ascii.eqb c dquote then readEscaped rest else Some (readNonEscaped s)
  | EmptyString => Some (EmptyString, EmptyString)
  end.

(** *** An RFC 4180 reader for a whole text

    Records end at a line feed (a carriage return outside quotes is
    skipped, so CRLF ends a record too), fields at a comma; a field that
    starts with a double quote runs to its closing quote, a doubled quote
    inside standing for one.  The text may end without a line break. *)

Inductive ReaderMode := FieldStart | NonEscaped | Escaped | QuoteSeen.

Fixpoint readRecords (mode : ReaderMode) (field : string) (record : list string)
    (s : string) : list (list string) :=
  match s with
  | EmptyString =>
      match mode, record with
      | FieldStart, [] => []
      | _, _ => [(record ++ [field])%list]
      end
  | String c rest =>
      match mode with
      | Escaped =>
          if Ascii.eqb c dquote then readRecords QuoteSeen field record rest
          else readRecords Escaped (field ++ String c EmptyString) record rest
      | QuoteSeen =>
          if Ascii.eqb c dquote then
            readRecords Escaped (field ++ String dquote EmptyString) record rest
          else if Ascii.eqb c "," then
            readRecords FieldStart EmptyString (record ++ [field])%list rest
          else if Ascii.eqb c "010" then
            (record ++ [field])%list :: readRecords FieldStart EmptyString [] rest
          else if Ascii.eqb c "013" then readRecords QuoteSeen field record rest
          else readRecords NonEscaped (field ++ String c EmptyString) record rest
      | FieldStart =>
          if Ascii.eqb c dquote then readRecords Escaped EmptyString record rest
          else if Ascii.eqb c "," then
            readRecords FieldStart EmptyString (record ++ [field])%list rest
          else if Ascii.eqb c "010" then
            (record ++ [field])%list :: readRecords FieldStart EmptyString [] rest
          else if Ascii.eqb c "013" then readRecords FieldStart field record rest
          else readRecords NonEscaped (field ++ String c EmptyString) record rest
      | NonEscaped =>
          if Ascii.eqb c "," then
            readRecords FieldStart EmptyString (record ++ [field])%list rest
          else if Ascii.eqb c "010" then
            (record ++ [field])%list :: readRecords FieldStart EmptyString [] rest
          else if Ascii.eqb c "013" then readRecords NonEscaped field record rest
          else readRecords NonEscaped (field ++ String c EmptyString) record rest
      end
  end.

Definition readCSV (s : string) : list (list string) :=
  readRecords FieldStart EmptyString [] s.

(** A character that needs quoting: comma, double quote, line feed or
    carriage return. *)
Definition isSpecial (c : ascii) : bool :=
  Ascii.eqb c "," || Ascii.eqb c dquote || Ascii.eqb c "010" || Ascii.eqb c "013".

(** A text that can stand as a field without quotes. *)
Fixpoint plainField (s : string) : bool :=
  match s with
  | EmptyString => true
  | String c rest => negb (isSpecial c) && plainField rest
  end.

(** *** Vocabulary of the properties *)

(** The text after the header: each row preceded by a line feed. *)
Fixpoint appendRows (rows : list string) : string :=
  match rows with
  | [] => EmptyString
  | row :: rest => newline ++ row ++ appendRows rest
  end.

(** The text up to the first line feed. *)
Fixpoint firstLine (s : string) : string :=
  match s with
  | EmptyString => EmptyString
  | String c rest =>
      if Ascii.eqb c "010" then EmptyString else String c (firstLine rest)
  end.

(** A row as both exports write it, from its four values, and the record a
    reader should get back. *)
Definition rowText (fields : string * string * string * string) : string :=
  let '(a, b, c, d) := fields in
  a ++ "," ++ b ++ "," ++ c ++ "," ++ quoteDescription d.

Definition rowFields (fields : string * string * string * string)
    : list string :=
  let '(a, b, c, d) := fields in [a; b; c; d].

(** The values of a row of the export modal. *)
Definition modalFields (numberToString : float -> string)
    (expense : Expense float) : list string :=
  [date expense; categoryName (category expense);
   numberToString (amount expense); description expense].

(** The row the export modal writes for an expense. *)
Definition modalRow (numberToString : float -> string) (expense : Expense float)
    : string :=
  date expense ++ "," ++ categoryName (category expense) ++ ","
  ++ numberToString (amount expense) ++ ","
  ++ quoteDescription (description expense).

End CsvExport.

(** ** Local storage (lib/storage.ts) *)

Module Storage.

(** [Partial<Omit<Expense, 'id' | 'createdAt' | 'updatedAt'>>]: the keys an
    update may carry; [None] is an absent key. *)
Record ExpenseUpdates := mkUpdates {
  new_date : option string;
  new_amount : option float;
  new_category : option ExpenseCategory;
  new_description : option string
}.

(** [JSON.parse(JSON.stringify(a))] for an amount.  An amount at run time
    is a number, or [null] ([None]) once a record has been through JSON
    with an amount that JSON cannot write.  [JSON.stringify] writes
    [null] for NaN and for the infinities and [0] for the negative zero;
    every other number is written as the shortest decimal that reads back
    as the same number; [null] is written and read as [null]. *)
Definition jsonAmount (a : option float) : option float :=
  match a with
  | None => None
  | Some v =>
      if PrimFloat.is_nan v || PrimFloat.is_infinity v then None
      else if PrimFloat.is_zero v then Some 0%float
      else Some v
  end.

(** [JSON.parse(JSON.stringify(expense))]: the other fields are strings,
    which come back as they were. *)
Definition jsonExpense (expense : Expense (option float))
    : Expense (option float) :=
  mkExpense (id expense) (date expense) (jsonAmount (amount expense))
    (category expense) (description expense) (createdAt expense)
    (updatedAt expense).

(** The browser's storage as the adapter sees it.  The JSON text under the
    key is represented by the array that [JSON.stringify] wrote it from
    ([None]: no item, or text that does not parse); [JSON.parse] reads
    that text as [jsonExpense] of each record.  [setItemThrows] tells for
    which arrays the write of the text throws. *)
Record LocalStorage := mkStorage {
  hasWindow : bool;
  item : option (list (Expense (option float)));
  setItemThrows : list (Expense (option float)) -> bool
}.

Definition getExpenses (ls : LocalStorage) : list (Expense (option float)) :=
  if hasWindow ls then
    match item ls with
    | Some data => List.map jsonExpense data
    | None => []
    end
  else [].

Definition saveExpenses (expenses : list (Expense (option float)))
    (ls : LocalStorage) : LocalStorage :=
  if hasWindow ls then
    if setItemThrows ls expenses then ls
    else mkStorage (hasWindow ls) (Some expenses) (setItemThrows ls)
  else ls.

(** [{ ...expense, ...updates, updatedAt: now }] *)
Definition applyUpdates (expense : Expense (option float))
    (updates : ExpenseUpdates) (now : string) : Expense (option float) :=
  mkExpense (id expense)
    (default (date expense) (new_date updates))
    (match new_amount updates with
     | Some v => Some v
     | None => amount expense
     end)
    (default (category expense) (new_category updates))
    (default (description expense) (new_description updates))
    (createdAt expense)
    now.

(** [updateExpense(id, updates)]; [now] is [new Date().toISOString()].  The
    result is the returned value ([None] for [null]) and the storage
    afterwards. *)
Definition updateExpense (now : string) (id0 : string) (updates : ExpenseUpdates)
    (ls : LocalStorage) : option (Expense (option float)) * LocalStorage :=
  let expenses := getExpenses ls in
  match list_find (fun exp => id exp = id0) expenses with
  | None => (None, ls)
  | Some (index, expense) =>
      let updatedExpense := applyUpdates expense updates now in
      (Some updatedExpense,
       saveExpenses (<[index := updatedExpense]> expenses) ls)
  end.

(** [Omit<Expense, 'id' | 'createdAt' | 'updatedAt'>]: what the form hands
    to [addExpense]. *)
Record ExpenseInput := mkInput {
  input_date : string;
  input_amount : float;
  input_category : ExpenseCategory;
  input_description : string
}.

(** [addExpense(expense)]; [uuid] is [crypto.randomUUID()] and [now] is
    [new Date().toISOString()].  The result is the returned record and the
    storage afterwards. *)
Definition addExpense (uuid now : string) (expense : ExpenseInput)
    (ls : LocalStorage) : Expense (option float) * LocalStorage :=
  let expenses := getExpenses ls in
  let newExpense :=
    mkExpense uuid (input_date expense) (Some (input_amount expense))
      (input_category expense) (input_description expense) now now in
  (newExpense, saveExpenses (expenses ++ [newExpense]) ls).

(** [deleteExpense(id)]: the returned flag and the storage afterwards. *)
Definition deleteExpense (id0 : string) (ls : LocalStorage)
    : bool * LocalStorage :=
  let expenses := getExpenses ls in
  let filteredExpenses :=
    List.filter (fun exp => negb (String.eqb (id exp) id0)) expenses in
  if (List.length filteredExpenses =? List.length expenses)%nat then (false, ls)
  else (true, saveExpenses filteredExpenses ls).

Definition clearAllExpenses (ls : LocalStorage) : LocalStorage :=
  saveExpenses [] ls.

(** *** Vocabulary of the properties *)

(** The adapter runs in a browser and no write to storage throws. *)
Definition writable (ls : LocalStorage) : Prop :=
  hasWindow ls = true /\ forall expenses, setItemThrows ls expenses = false.

(** Some stored record has the id. *)
Definition stored (id0 : string) (ls : LocalStorage) : Prop :=
  exists expense, In expense (getExpenses ls) /\ id expense = id0.

(** No two stored records share an id. *)
Definition uniqueIds (expenses : list (Expense (option float))) : Prop :=
  NoDup (List.map id expenses).

(** The amount comes back from JSON as it went in: it is [null], or a
    finite number other than the negative zero. *)
Definition survivesJson (a : option float) : Prop := jsonAmount a = a.

(** A store with two records in which every write succeeds. *)
Definition sampleStorage : LocalStorage :=
  mkStorage true
    (Some [mkExpense "a" "2024-01-15" (Some 12.5%float) Food "lunch" "t1" "t1";
           mkExpense "b" "2024-01-16" (Some 40%float) Bills "water" "t2" "t2"])
    (fun _ => false).

End Storage.

(** ** The page component's handlers (app/page.tsx) *)

Module Page.
Import Storage.

(** [ExpenseFormData] as the handlers receive it: the amount is still text,
    the category is one of the six values. *)
Record ExpenseFormData := mkForm {
  form_date : string;
  form_amount : string;
  form_category : ExpenseCategory;
  form_description : string
}.

(** The component's state that the handlers touch, together with the
    browser's storage. *)
Record PageState := mkPage {
  expenses : list (Expense (option float));
  isModalOpen : bool;
  editingExpense : option (Expense (option float));
  isLoaded : bool;
  storage : LocalStorage
}.

(** The effect that runs on mount. *)
Definition loadExpenses (st : PageState) : PageState :=
  mkPage (getExpenses (storage st)) (isModalOpen st) (editingExpense st) true
    (storage st).

Definition handleAddExpense (uuid now : string) (formData : ExpenseFormData)
    (st : PageState) : PageState :=
  let '(newExpense, ls) :=
    addExpense uuid now
      (mkInput (form_date formData) (Currency.parseFloat (form_amount formData))
         (form_category formData) (form_description formData))
      (storage st) in
  mkPage (expenses st ++ [newExpense]) false (editingExpense st) (isLoaded st) ls.

Definition handleEditExpense (now : string) (formData : ExpenseFormData)
    (st : PageState) : PageState :=
  match editingExpense st with
  | None => st
  | Some editing =>
      let '(updatedExpense, ls) :=
        updateExpense now (id editing)
          (mkUpdates (Some (form_date formData))
             (Some (Currency.parseFloat (form_amount formData)))
             (Some (form_category formData))
             (Some (form_description formData)))
          (storage st) in
      let expenses' :=
        match updatedExpense with
        | Some updated =>
            List.map (fun exp =>
                        if String.eqb (id exp) (id updated) then updated else exp)
              (expenses st)
        | None => expenses st
        end in
      mkPage expenses' false None (isLoaded st) ls
  end.

Definition handleDeleteExpense (id0 : string) (st : PageState) : PageState :=
  let '(success, ls) := deleteExpense id0 (storage st) in
  let expenses' :=
    if success
    then List.filter (fun exp => negb (String.eqb (id exp) id0)) (expenses st)
    else expenses st in
  mkPage expenses' (isModalOpen st) (editingExpense st) (isLoaded st) ls.

Definition handleOpenAddModal (st : PageState) : PageState :=
  mkPage (expenses st) true None (isLoaded st) (storage st).

Definition handleOpenEditModal (expense : Expense (option float)) (st : PageState)
    : PageState :=
  mkPage (expenses st) true (Some expense) (isLoaded st) (storage st).

Definition handleCloseModal (st : PageState) : PageState :=
  mkPage (expenses st) false None (isLoaded st) (storage st).

(** *** Vocabulary of the properties *)

(** The list on screen is the stored collection. *)
Definition inSync (st : PageState) : Prop :=
  expenses st = getExpenses (storage st).

(** A page over the sample store, after the mount effect. *)
Definition samplePage : PageState :=
  loadExpenses (mkPage [] false None false sampleStorage).

End Page.

(** ** The export modal's filter (components/ExportModal.tsx) *)

Module ExportModal.

Definition categoryOfIndex (n : nat) : option ExpenseCategory :=
  categoryKeys !! n.

#[export] Instance ExpenseCategory_countable : Countable ExpenseCategory :=
  inj_countable categoryIndex categoryOfIndex
    (fun c => match c with
              | Food | Transportation | Entertainment | Shopping | Bills
              | Other => eq_refl
              end).

(** [CATEGORIES] *)
Definition CATEGORIES : list ExpenseCategory :=
  [Food; Transportation; Entertainment; Shopping; Bills; Other].

(** A string used as a condition: the empty string is falsy. *)
Definition truthy (s : string) : bool := negb (String.eqb s EmptyString).

(** [a >= b] and [a <= b] on two [Date] objects compare their time values;
    a comparison with an invalid date ([None], the time value NaN) is
    false. *)
Definition dateGe (a b : option Z) : bool :=
  match a, b with
  | Some x, Some y => (y <=? x)%Z
  | _, _ => false
  end.

Definition dateLe (a b : option Z) : bool :=
  match a, b with
  | Some x, Some y => (x <=? y)%Z
  | _, _ => false
  end.

Section Filter.

(** [new Date(s).getTime()] in milliseconds, [None] for an invalid date. *)
Variable dateValue : string -> option Z.

(** The predicate of the [filter] in [filteredExpenses]; [start] and [end]
    are [null] when the corresponding text is empty. *)
Definition passesFilter (startDate endDate : string)
    (selectedCategories : gset ExpenseCategory) (expense : Expense float) : bool :=
  let expenseDate := dateValue (date expense) in
  let dateMatch :=
    (negb (truthy startDate) || dateGe expenseDate (dateValue startDate))
    && (negb (truthy endDate) || dateLe expenseDate (dateValue endDate)) in
  let categoryMatch := bool_decide (category expense ∈ selectedCategories) in
  dateMatch && categoryMatch.

Definition filteredExpenses (startDate endDate : string)
    (selectedCategories : gset ExpenseCategory)
    (expenses : list (Expense float)) : list (Expense float) :=
  List.filter (passesFilter startDate endDate selectedCategories) expenses.

End Filter.

Definition toggleCategory (selectedCategories : gset ExpenseCategory)
    (category : ExpenseCategory) : gset ExpenseCategory :=
  if decide (category ∈ selectedCategories)
  then selectedCategories ∖ {[category]}
  else selectedCategories ∪ {[category]}.

Definition selectAllCategories : gset ExpenseCategory := list_to_set CATEGORIES.

Definition deselectAllCategories : gset ExpenseCategory := ∅.

End ExportModal.

(** ** The export hub's schedules (components/ExportHub.tsx) *)

Module ExportHub.

Record ScheduledExport := mkSchedule {
  schedule_id : string;
  template : string;
  frequency : string;
  destination : string;
  nextRun : string;
  enabled : bool
}.

(** [toggleSchedule(id)]: the new value of the [scheduledExports] state. *)
Definition toggleSchedule (id0 : string) (scheduledExports : list ScheduledExport)
    : list ScheduledExport :=
  List.map (fun schedule =>
              if String.eqb (schedule_id schedule) id0
              then mkSchedule (schedule_id schedule) (template schedule)
                     (frequency schedule) (destination schedule)
                     (nextRun schedule) (negb (enabled schedule))
              else schedule)
    scheduledExports.

End ExportHub.
(** * Properties *)

Module JsNumber.

(** Order facts about the binary64 comparison, through its specification
    on [spec_float]. *)

Lemma SFltb_trans x y z :
  SFltb x y = true -> SFltb y z = true -> SFltb x z = true.
Proof.
  unfold SFltb.
  destruct x as [sx|sx| |sx mx ex], y as [sy|sy| |sy my ey],
           z as [sz|sz| |sz mz ez];
    simpl; try discriminate; try reflexivity;
    repeat match goal with s : bool |- _ => destruct s end;
    simpl; try discriminate; try reflexivity.
  all: change (Pos.compare_cont Eq) with Pos.compare.
  all: destruct (Z.compare_spec ex ey), (Z.compare_spec ey ez),
         (Z.compare_spec ex ez);
    try discriminate; try reflexivity; try lia; subst.
  all: destruct (Pos.compare_spec mx my), (Pos.compare_spec my mz),
         (Pos.compare_spec mx mz);
    simpl; try discriminate; try reflexivity; try lia.
Qed.

Lemma SFltb_irrefl x : SFltb x x = false.
Proof.
  unfold SFltb.
  destruct x as [s|s| |s m e]; simpl; try reflexivity; destruct s;
    try reflexivity.
  all: change (Pos.compare_cont Eq) with Pos.compare.
  all: rewrite Z.compare_refl, Pos.compare_refl; reflexivity.
Qed.

(** If [x] does not exceed [m] and [m < a], then [x < a] unless [x] is
    NaN. *)
Lemma SFltb_below m x a :
  SFltb m x = false -> SFltb m a = true ->
  SFltb x a = true \/ x = S754_nan.
Proof.
  unfold SFltb. intros H1 H2.
  destruct x as [sx|sx| |sx mx ex]; [| |right; reflexivity|]; left;
    revert H1 H2;
    destruct m as [sy|sy| |sy my ey], a as [sz|sz| |sz mz ez];
    simpl; try discriminate; try reflexivity;
    repeat match goal with s : bool |- _ => destruct s end;
    simpl; try discriminate; try reflexivity.
  all: change (Pos.compare_cont Eq) with Pos.compare.
  all: destruct (Z.compare_spec ey ex), (Z.compare_spec ey ez),
         (Z.compare_spec ex ez);
    try discriminate; try reflexivity; try lia; subst.
  all: destruct (Pos.compare_spec my mx), (Pos.compare_spec my mz),
         (Pos.compare_spec mx mz);
    simpl; try discriminate; try reflexivity; try lia.
Qed.

Lemma ltb_trans (x y z : float) :
  PrimFloat.ltb x y = true -> PrimFloat.ltb y z = true ->
  PrimFloat.ltb x z = true.
Proof. rewrite !FloatAxioms.ltb_spec. apply SFltb_trans. Qed.

Lemma ltb_irrefl (x : float) : PrimFloat.ltb x x = false.
Proof. rewrite FloatAxioms.ltb_spec. apply SFltb_irrefl. Qed.

Lemma ltb_below (m x a : float) :
  PrimFloat.ltb m x = false -> PrimFloat.ltb m a = true ->
  PrimFloat.ltb x a = true \/ x = nan.
Proof.
  rewrite !FloatAxioms.ltb_spec. intros H1 H2.
  destruct (SFltb_below _ _ _ H1 H2) as [H|H]; [left; exact H|right].
  apply Prim2SF_inj. rewrite H. reflexivity.
Qed.


(** Comparing the other way round gives the opposite outcome. *)
Lemma SFcompare_swap x y :
  SFcompare y x = option_map CompOpp (SFcompare x y).
Proof.
  destruct x as [sx|sx| |sx mx ex], y as [sy|sy| |sy my ey]; simpl;
    try reflexivity;
    repeat match goal with s : bool |- _ => destruct s end;
    simpl; try reflexivity.
  all: change (Pos.compare_cont Eq) with Pos.compare.
  all: rewrite (Z.compare_antisym ex ey), (Pos.compare_antisym mx my).
  all: destruct (ex ?= ey)%Z; simpl; try reflexivity.
  all: destruct (mx ?= my)%positive; reflexivity.
Qed.

Lemma is_nan_spec (x : float) :
  PrimFloat.is_nan x
  = match Prim2SF x with S754_nan => true | _ => false end.
Proof.
  unfold PrimFloat.is_nan. rewrite FloatAxioms.eqb_spec. unfold SFeqb.
  destruct (Prim2SF x) as [s|s| |s m e]; simpl; try reflexivity;
    destruct s; try reflexivity.
  all: change (Pos.compare_cont Eq) with Pos.compare.
  all: rewrite Z.compare_refl, Pos.compare_refl; reflexivity.
Qed.

Lemma ltb_not_leb (x y : float) :
  PrimFloat.ltb x y = true -> PrimFloat.leb y x = false.
Proof.
  rewrite FloatAxioms.ltb_spec, FloatAxioms.leb_spec. unfold SFltb, SFleb.
  rewrite (SFcompare_swap (Prim2SF x) (Prim2SF y)).
  destruct (SFcompare (Prim2SF x) (Prim2SF y)) as [[]|]; simpl;
    intros Hc; try discriminate Hc; reflexivity.
Qed.

Lemma leb_not_ltb (x y : float) :
  PrimFloat.leb x y = true -> PrimFloat.ltb y x = false.
Proof.
  rewrite FloatAxioms.ltb_spec, FloatAxioms.leb_spec. unfold SFltb, SFleb.
  rewrite (SFcompare_swap (Prim2SF x) (Prim2SF y)).
  destruct (SFcompare (Prim2SF x) (Prim2SF y)) as [[]|]; simpl;
    intros Hc; try discriminate Hc; reflexivity.
Qed.

Lemma ltb_not_nan_r (x y : float) :
  PrimFloat.ltb x y = true -> PrimFloat.is_nan y = false.
Proof.
  rewrite FloatAxioms.ltb_spec, is_nan_spec. unfold SFltb.
  destruct (Prim2SF y) as [s|s| |s m e]; try reflexivity.
  destruct (Prim2SF x) as [s|s| |s m e]; simpl; intros Hc; discriminate Hc.
Qed.

Lemma ltb_not_nan_l (x y : float) :
  PrimFloat.ltb x y = true -> PrimFloat.is_nan x = false.
Proof.
  rewrite FloatAxioms.ltb_spec, is_nan_spec. unfold SFltb.
  destruct (Prim2SF x) as [s|s| |s m e]; try reflexivity.
  simpl. intros Hc; discriminate Hc.
Qed.

(** Two numbers, neither NaN, are comparable. *)
Lemma not_leb_ltb (x y : float) :
  PrimFloat.is_nan x = false -> PrimFloat.is_nan y = false ->
  PrimFloat.leb x y = false -> PrimFloat.ltb y x = true.
Proof.
  rewrite !is_nan_spec, FloatAxioms.ltb_spec, FloatAxioms.leb_spec.
  unfold SFltb, SFleb.
  rewrite (SFcompare_swap (Prim2SF x) (Prim2SF y)).
  destruct (Prim2SF x) as [sx|sx| |sx mx ex], (Prim2SF y) as [sy|sy| |sy my ey];
    try discriminate; intros _ _; simpl;
    repeat match goal with s : bool |- _ => destruct s end; simpl;
    try discriminate; try reflexivity.
  all: destruct (ex ?= ey)%Z; simpl; try discriminate; try reflexivity.
  all: destruct (Pos.compare_cont Eq mx my); simpl; try discriminate;
    try reflexivity.
Qed.

Lemma not_ltb_leb (x y : float) :
  PrimFloat.is_nan x = false -> PrimFloat.is_nan y = false ->
  PrimFloat.ltb x y = false -> PrimFloat.leb y x = true.
Proof.
  rewrite !is_nan_spec, FloatAxioms.ltb_spec, FloatAxioms.leb_spec.
  unfold SFltb, SFleb.
  rewrite (SFcompare_swap (Prim2SF x) (Prim2SF y)).
  destruct (Prim2SF x) as [sx|sx| |sx mx ex], (Prim2SF y) as [sy|sy| |sy my ey];
    try discriminate; intros _ _; simpl;
    repeat match goal with s : bool |- _ => destruct s end; simpl;
    try discriminate; try reflexivity.
  all: destruct (ex ?= ey)%Z; simpl; try discriminate; try reflexivity.
  all: destruct (Pos.compare_cont Eq mx my); simpl; try discriminate;
    try reflexivity.
Qed.

End JsNumber.

(** ** Aggregation *)

Module Calculations.

(** C3: the summary of the empty list has total 0, monthly total 0, six
    buckets equal to 0 and no top category, whatever the current month is. *)
Theorem empty_summary (isWithinCurrentMonth : string -> bool) :
  calculateSpendingSummary isWithinCurrentMonth ([] : list (Expense float))
  = mkSummary 0%float 0%float
      (mkBreakdown 0%float 0%float 0%float 0%float 0%float 0%float) None.
Proof. reflexivity. Qed.

(** *** The scan for the top category *)

Lemma categoryKeys_index (c : ExpenseCategory) :
  categoryKeys !! categoryIndex c = Some c.
Proof. destruct c; reflexivity. Qed.

Lemma categoryKeys_lookup (k : nat) (c : ExpenseCategory) :
  categoryKeys !! k = Some c -> categoryIndex c = k.
Proof.
  unfold categoryKeys. intros Hk.
  do 6 (destruct k as [|k]; [inversion Hk; reflexivity|]).
  discriminate Hk.
Qed.

Lemma categoryIndex_inj (c c' : ExpenseCategory) :
  categoryIndex c = categoryIndex c' -> c = c'.
Proof. destruct c, c'; simpl; intros Hi; try reflexivity; discriminate Hi. Qed.

Lemma categoryIndex_bound (c : ExpenseCategory) : categoryIndex c < 6.
Proof. destruct c; simpl; lia. Qed.

Lemma ScanInv_init (b : CategoryBreakdown float) : ScanInv b 0 (None, 0%float).
Proof.
  split; simpl.
  - reflexivity.
  - intros c a Hc. discriminate Hc.
  - intros c' Hc'. lia.
Qed.

Lemma ScanInv_positive b k st :
  ScanInv b k st -> st.2 = 0%float \/ PrimFloat.ltb 0 st.2 = true.
Proof.
  intros [Hn Hs _]. destruct st as [[[c a]|] m]; simpl in *.
  - right. destruct (Hs c a eq_refl) as (-> & _ & _ & Hp & _). exact Hp.
  - left. apply Hn. reflexivity.
Qed.

Lemma ScanInv_step b k st c :
  ScanInv b k st -> categoryKeys !! k = Some c ->
  ScanInv b (S k) (scanStep b st c).
Proof.
  intros Hinv Hk. pose proof (categoryKeys_lookup _ _ Hk) as Hidx.
  pose proof (ScanInv_positive _ _ _ Hinv) as Hpos.
  destruct Hinv as [Hn Hs Hm].
  unfold scanStep. simpl gt.
  destruct (PrimFloat.ltb st.2 (bucket b c)) eqn:Hgt.
  - split; simpl.
    + intros Hc. discriminate Hc.
    + intros c0 a [= <- <-]. repeat split; try reflexivity.
      * lia.
      * destruct Hpos as [Hz|Hp].
        -- rewrite <- Hz. exact Hgt.
        -- exact (JsNumber.ltb_trans _ _ _ Hp Hgt).
      * intros c' Hc'. apply (JsNumber.ltb_below st.2); [|exact Hgt].
        apply Hm. lia.
    + intros c' Hc'.
      destruct (decide (categoryIndex c' = k)) as [He|Hne].
      * rewrite <- Hidx in He. apply categoryIndex_inj in He. subst c'.
        apply JsNumber.ltb_irrefl.
      * destruct (PrimFloat.ltb (bucket b c) (bucket b c')) eqn:Hlt;
          [|reflexivity].
        rewrite <- (Hm c') by lia. symmetry.
        exact (JsNumber.ltb_trans _ _ _ Hgt Hlt).
  - split.
    + exact Hn.
    + intros c0 a Hc0. destruct (Hs c0 a Hc0) as (H1 & H2 & H3 & H4 & H5).
      repeat split; try assumption. lia.
    + intros c' Hc'.
      destruct (decide (categoryIndex c' = k)) as [He|Hne].
      * rewrite <- Hidx in He. apply categoryIndex_inj in He. subst c'.
        exact Hgt.
      * apply Hm. lia.
Qed.

Lemma ScanInv_final (b : CategoryBreakdown float) :
  ScanInv b 6 (fold_left (scanStep b) categoryKeys (None, 0%float)).
Proof.
  pose proof (ScanInv_init b) as H0.
  apply (ScanInv_step _ _ _ Food) in H0; [|reflexivity].
  apply (ScanInv_step _ _ _ Transportation) in H0; [|reflexivity].
  apply (ScanInv_step _ _ _ Entertainment) in H0; [|reflexivity].
  apply (ScanInv_step _ _ _ Shopping) in H0; [|reflexivity].
  apply (ScanInv_step _ _ _ Bills) in H0; [|reflexivity].
  apply (ScanInv_step _ _ _ Other) in H0; [|reflexivity].
  exact H0.
Qed.

(** C1: [topCategory] is [null] exactly when no bucket exceeds 0; otherwise
    it is a key paired with its bucket's amount, the amount exceeds 0, no
    bucket exceeds it, and every key that comes earlier in the order Food,
    Transportation, Entertainment, Shopping, Bills, Other holds a strictly
    smaller value (or NaN, which compares with nothing): the first key that
    holds the largest value. *)
Theorem topCategory_first_largest (isWithinCurrentMonth : string -> bool)
    (expenses : list (Expense float)) :
  let summary := calculateSpendingSummary isWithinCurrentMonth expenses in
  let b := categoryBreakdown summary in
  (topCategory summary = None <-> forall c, gt (bucket b c) 0%float = false)
  /\ forall c a, topCategory summary = Some (c, a) ->
       a = bucket b c
       /\ gt a 0%float = true
       /\ (forall c', gt (bucket b c') a = false)
       /\ (forall c', categoryIndex c' < categoryIndex c ->
             gt a (bucket b c') = true \/ bucket b c' = nan).
Proof.
  simpl. unfold findTopCategory.
  pose proof (ScanInv_final (breakdownOf expenses)) as Hinv.
  change (@zero float jsNumber) with 0%float.
  destruct (fold_left (scanStep (breakdownOf expenses)) categoryKeys
              (None, 0%float)) as [top m].
  destruct Hinv as [Hn Hs Hm]. simpl in *.
  assert (Hsome : forall c a, top = Some (c, a) ->
            a = bucket (breakdownOf expenses) c /\ PrimFloat.ltb 0 a = true
            /\ (forall c', PrimFloat.ltb a (bucket (breakdownOf expenses) c') = false)
            /\ (forall c', categoryIndex c' < categoryIndex c ->
                  PrimFloat.ltb (bucket (breakdownOf expenses) c') a = true
                  \/ bucket (breakdownOf expenses) c' = nan)).
  { intros c a Hc. destruct (Hs c a Hc) as (-> & H2 & _ & H4 & H5).
    repeat split; auto.
    intros c'. apply Hm, categoryIndex_bound. }
  split; [split|exact Hsome].
  - intros ->. intros c. rewrite <- (Hn eq_refl).
    apply Hm, categoryIndex_bound.
  - intros Hall. destruct top as [[c a]|]; [|reflexivity].
    destruct (Hsome c a eq_refl) as (-> & Hp & _).
    rewrite Hall in Hp. discriminate Hp.
Qed.

(** *** Buckets against the total *)

(** C9 fails for binary64 amounts: with 1.1 and 3.3 in Food and 2.2 in Bills
    the total is (1.1 + 2.2) + 3.3 = 6.6 while the buckets hold 4.4 and 2.2,
    whose sum is 6.6000000000000005.  Only two buckets are non-zero, so the
    order in which the six are added does not matter. *)
Lemma buckets_sum_differs_binary64 :
  let summary :=
    calculateSpendingSummary (fun _ => true)
      [mkExpense "1" "2024-01-15" 1.1%float Food "lunch" "t1" "t1";
       mkExpense "2" "2024-01-16" 2.2%float Bills "water" "t2" "t2";
       mkExpense "3" "2024-01-17" 3.3%float Food "dinner" "t3" "t3"] in
  sumBuckets (categoryBreakdown summary) <> totalSpending summary.
Proof. vm_compute. discriminate. Qed.

End Calculations.

(** ** Currency parsing *)

Module CurrencyFacts.
Import Currency.
Local Open Scope string_scope.

(** *** Rounding never produces a negative number or NaN from a
    non-negative mantissa *)

Lemma iter_pos_preserves {A} (P : A -> Prop) (f : A -> A) :
  (forall x, P x -> P (f x)) -> forall n x, P x -> P (SpecFloat.iter_pos f n x).
Proof.
  intros Hf. induction n as [n IH|n IH|]; intros x Hx; simpl; auto.
Qed.

Lemma shr_1_nonneg (mrs : shr_record) :
  (0 <= shr_m mrs)%Z -> (0 <= shr_m (shr_1 mrs))%Z.
Proof.
  destruct mrs as [m r s]. simpl.
  destruct m as [|[p|p|]|[p|p|]]; simpl; lia.
Qed.

Lemma shr_fexp_nonneg (m e : Z) (l : location) :
  (0 <= m)%Z -> (0 <= shr_m (shr_fexp prec emax m e l).1)%Z.
Proof.
  intros Hm. unfold shr_fexp, shr.
  assert (H0 : (0 <= shr_m (shr_record_of_loc m l))%Z).
  { destruct l as [|[]]; exact Hm. }
  destruct (fexp prec emax (Zdigits2 m + e) - e)%Z as [|p|p]; simpl;
    try exact H0.
  apply (iter_pos_preserves (fun mrs => (0 <= shr_m mrs)%Z)); [|exact H0].
  apply shr_1_nonneg.
Qed.

Lemma round_nearest_even_nonneg (m : Z) (l : location) :
  (0 <= m)%Z -> (0 <= round_nearest_even m l)%Z.
Proof.
  intros Hm. destruct l as [|[]]; simpl; try lia.
  destruct (Z.even m); lia.
Qed.

Lemma binary_round_aux_nonneg (m e : Z) (l : location) :
  (0 <= m)%Z -> nonNegative (binary_round_aux prec emax false m e l).
Proof.
  intros Hm. unfold binary_round_aux.
  pose proof (shr_fexp_nonneg m e l Hm) as H1.
  destruct (shr_fexp prec emax m e l) as [mrs' e']. simpl in H1.
  pose proof (shr_fexp_nonneg _ e' loc_Exact
                (round_nearest_even_nonneg _ (loc_of_shr_record mrs') H1)) as H2.
  destruct (shr_fexp prec emax
              (round_nearest_even (shr_m mrs') (loc_of_shr_record mrs')) e'
              loc_Exact) as [mrs'' e'']. simpl in H2.
  destruct (shr_m mrs'') as [|p|p]; simpl; [exact I| |lia].
  destruct (e'' <=? emax - prec)%Z; exact I.
Qed.

Lemma binary_round_nonneg (m : positive) (e : Z) :
  nonNegative (binary_round prec emax false m e).
Proof.
  unfold binary_round.
  destruct (shl_align m e _) as [mz ez].
  apply binary_round_aux_nonneg. lia.
Qed.

Lemma binary_normalize_nonneg (m e : Z) :
  (0 <= m)%Z -> nonNegative (binary_normalize prec emax m e false).
Proof.
  intros Hm. destruct m as [|p|p]; simpl; [exact I| |lia].
  apply binary_round_nonneg.
Qed.

Lemma SFldexp_nonneg (x : spec_float) (e : Z) :
  nonNegative x -> nonNegative (SFldexp prec emax x e).
Proof.
  destruct x as [[]|[]| |[] m ex]; simpl; try tauto.
  intros _. apply binary_round_nonneg.
Qed.

(** The primitive float built from a non-negative specification value. *)
Lemma Prim2SF_SF2Prim_nonneg (x : spec_float) :
  nonNegative x -> nonNegative (Prim2SF (SF2Prim x)).
Proof.
  destruct x as [[]|[]| |[] m e]; intros Hx; try exact (False_ind _ Hx).
  - change (SF2Prim (S754_zero false)) with 0%float.
    replace (Prim2SF 0) with (S754_zero false) by (vm_compute; reflexivity).
    exact I.
  - change (SF2Prim (S754_infinity false)) with infinity.
    replace (Prim2SF infinity) with (S754_infinity false)
      by (vm_compute; reflexivity).
    exact I.
  - change (SF2Prim (S754_finite false m e))
      with (Z.ldexp (of_uint63 (of_Z (Zpos m))) e).
    unfold Z.ldexp. rewrite ldshiftexp_spec, of_uint63_spec.
    apply SFldexp_nonneg, binary_normalize_nonneg.
    apply Uint63.to_Z_bounded.
Qed.

Lemma nonNegative_leb (x : float) :
  nonNegative (Prim2SF x) -> PrimFloat.leb 0 x = true.
Proof.
  rewrite FloatAxioms.leb_spec.
  change (Prim2SF 0) with (S754_zero false).
  destruct (Prim2SF x) as [[]|[]| |[] m e]; simpl; tauto.
Qed.

Lemma nonNegative_is_nan (x : float) :
  nonNegative (Prim2SF x) -> PrimFloat.is_nan x = false.
Proof.
  unfold PrimFloat.is_nan. rewrite FloatAxioms.eqb_spec. unfold SFeqb.
  destruct (Prim2SF x) as [[]|[]| |[] m e]; simpl; try tauto; intros _.
  change (Pos.compare_cont Eq) with Pos.compare.
  rewrite Z.compare_refl, Pos.compare_refl. reflexivity.
Qed.

Lemma roundDecimal_nonneg (digits exponent : Z) :
  (0 <= digits)%Z -> nonNegative (roundDecimal false digits exponent).
Proof.
  intros Hd. unfold roundDecimal.
  destruct (0 <=? exponent)%Z eqn:He.
  - apply Z.leb_le in He.
    assert (Hn : (0 <= digits * 10 ^ exponent)%Z) by (apply Z.mul_nonneg_nonneg; [lia|apply Z.pow_nonneg; lia]).
    revert Hn. generalize (digits * 10 ^ exponent)%Z. intros n Hn.
    unfold SFdiv_core_binary.
    set (s := (_ - _ - _)%Z).
    set (m' := match s with Z0 => n | Zpos _ => Z.shiftl n s | Zneg _ => 0%Z end).
    assert (Hm' : (0 <= m')%Z).
    { subst m'. destruct s; try lia. apply Z.shiftl_nonneg. exact Hn. }
    pose proof (Z.div_eucl_eq m' 1 ltac:(lia)) as Heq.
    pose proof (Z.mod_pos_bound m' 1 ltac:(lia)) as Hb.
    unfold Z.modulo in Hb.
    destruct (Z.div_eucl m' 1) as [q r].
    apply binary_round_aux_nonneg. lia.
  - apply Z.leb_gt in He.
    assert (Hp : (0 < 10 ^ (- exponent))%Z) by (apply Z.pow_pos_nonneg; lia).
    revert Hp. generalize (10 ^ (- exponent))%Z. intros d Hp.
    unfold SFdiv_core_binary.
    set (s := (_ - _ - _)%Z).
    set (m' := match s with Z0 => digits | Zpos _ => Z.shiftl digits s | Zneg _ => 0%Z end).
    assert (Hm' : (0 <= m')%Z).
    { subst m'. destruct s; try lia. apply Z.shiftl_nonneg. exact Hd. }
    pose proof (Z.div_eucl_eq m' d ltac:(lia)) as Heq.
    pose proof (Z.mod_pos_bound m' d ltac:(lia)) as Hb.
    unfold Z.modulo in Hb.
    destruct (Z.div_eucl m' d) as [q r].
    apply binary_round_aux_nonneg. nia.
Qed.

Lemma toNumber_nonneg (digits exponent : Z) :
  (0 <= digits)%Z ->
  nonNegative (Prim2SF (toNumber (LitDecimal false digits exponent))).
Proof.
  intros Hd. simpl. apply Prim2SF_SF2Prim_nonneg, roundDecimal_nonneg, Hd.
Qed.

(** *** What [replace] leaves *)

Lemma stripNonNumeric_allOf (value : string) :
  allOf isDigitOrDot (stripNonNumeric value) = true.
Proof.
  induction value as [|c rest IH]; simpl; [reflexivity|].
  destruct (isDigitOrDot c) eqn:Hc; simpl; [rewrite Hc|]; exact IH.
Qed.

(** The kept characters are those of the input that are digits or dots, in
    the input's order. *)
Lemma stripNonNumeric_filter (value : string) :
  list_ascii_of_string (stripNonNumeric value)
  = List.filter isDigitOrDot (list_ascii_of_string value).
Proof.
  induction value as [|c rest IH]; simpl; [reflexivity|].
  destruct (isDigitOrDot c); simpl; rewrite IH; reflexivity.
Qed.

Lemma skipWhiteSpace_numeric (s : string) :
  allOf isDigitOrDot s = true -> skipWhiteSpace s = s.
Proof.
  destruct s as [|c1 r1]; [reflexivity|].
  simpl allOf. intros H. apply andb_prop in H. destruct H as [Hc _].
  destruct c1 as [[] [] [] [] [] [] [] []]; try discriminate Hc;
    destruct r1 as [|c2 [|c3 r3]]; reflexivity.
Qed.

Lemma spanDigits_allOf (s : string) :
  allOf isDigit (spanDigits s).1 = true.
Proof.
  induction s as [|c rest IH]; simpl; [reflexivity|].
  destruct (isDigit c) eqn:Hc; [|reflexivity].
  destruct (spanDigits rest) as [ds rest']. simpl in *.
  rewrite Hc. exact IH.
Qed.

Lemma allOf_app (p : ascii -> bool) (s t : string) :
  allOf p s = true -> allOf p t = true -> allOf p (s ++ t) = true.
Proof.
  induction s as [|c rest IH]; simpl; [auto|].
  intros H Ht. apply andb_prop in H. destruct H as [Hc Hr].
  rewrite Hc. simpl. auto.
Qed.

Lemma digitValue_nonneg (c : ascii) :
  isDigit c = true -> (0 <= digitValue c)%Z.
Proof.
  unfold isDigit, digitValue. intros H. apply andb_prop in H.
  destruct H as [H _]. apply Nat.leb_le in H. lia.
Qed.

Lemma digitsValue_nonneg (ds : string) (acc : Z) :
  allOf isDigit ds = true -> (0 <= acc)%Z -> (0 <= digitsValue acc ds)%Z.
Proof.
  revert acc. induction ds as [|c rest IH]; simpl; intros acc H Hacc.
  - exact Hacc.
  - apply andb_prop in H. destruct H as [Hc Hr].
    apply IH; [exact Hr|]. pose proof (digitValue_nonneg c Hc). lia.
Qed.

Lemma strUnsignedDecimalLiteral_finite (s : string) (lit : StrDecimalLiteral) :
  String.prefix "Infinity" s = false ->
  strUnsignedDecimalLiteral false s = Some lit -> unsignedFinite lit.
Proof.
  unfold strUnsignedDecimalLiteral. intros -> .
  pose proof (spanDigits_allOf s) as Hi.
  destruct (spanDigits s) as [intDigits rest]. simpl in Hi.
  assert (Hf : forall p : string * string,
            p = match rest with
                | String c r => if Ascii.eqb c "." then spanDigits r else (EmptyString, rest)
                | EmptyString => (EmptyString, rest)
                end -> allOf isDigit p.1 = true).
  { intros p ->. destruct rest as [|c r]; [reflexivity|].
    destruct (Ascii.eqb c "."); [apply spanDigits_allOf|reflexivity]. }
  specialize (Hf _ eq_refl).
  destruct (match rest with
            | String c r => if Ascii.eqb c "." then spanDigits r else (EmptyString, rest)
            | EmptyString => (EmptyString, rest)
            end) as [fracDigits rest']. simpl in Hf.
  assert (Hd : (0 <= digitsValue 0 (intDigits ++ fracDigits))%Z).
  { apply digitsValue_nonneg; [apply allOf_app; assumption|lia]. }
  destruct intDigits, fracDigits; intros [= <-]; exact Hd.
Qed.

Lemma strDecimalLiteral_numeric (s : string) (lit : StrDecimalLiteral) :
  allOf isDigitOrDot s = true ->
  strDecimalLiteral s = Some lit -> unsignedFinite lit.
Proof.
  destruct s as [|c rest]; [discriminate|].
  intros H. simpl in H. apply andb_prop in H. destruct H as [Hc _].
  unfold strDecimalLiteral.
  destruct c as [[] [] [] [] [] [] [] []]; try discriminate Hc; simpl;
    apply strUnsignedDecimalLiteral_finite; reflexivity.
Qed.

Lemma toNumber_unsignedFinite (lit : StrDecimalLiteral) :
  unsignedFinite lit -> nonNegative (Prim2SF (toNumber lit)).
Proof.
  destruct lit as [negative|[] digits exponent]; simpl; try tauto.
  apply toNumber_nonneg.
Qed.

(** What [parseCurrency] returns, in terms of the literal read from the
    cleaned string. *)
Lemma parseCurrency_literal (value : string) :
  parseCurrency value
  = match strDecimalLiteral (stripNonNumeric value) with
    | Some lit => toNumber lit
    | None => 0%float
    end.
Proof.
  unfold parseCurrency, parseFloat, isNaN.
  pose proof (stripNonNumeric_allOf value) as Hall.
  rewrite (skipWhiteSpace_numeric _ Hall).
  destruct (strDecimalLiteral (stripNonNumeric value)) as [lit|] eqn:Hlit.
  - rewrite nonNegative_is_nan; [reflexivity|].
    apply toNumber_unsignedFinite.
    exact (strDecimalLiteral_numeric _ _ Hall Hlit).
  - reflexivity.
Qed.

(** C7: the characters kept are exactly the digits and dots of the input, in
    order; the result is the number of the longest numeric prefix of what is
    kept, and 0 when there is none; the empty string, abc, one dot and two
    dots give 0 and the pound amount 1,234.56 gives 1234.56. *)
Theorem parseCurrency_strips_and_parses (value : string) :
  list_ascii_of_string (stripNonNumeric value)
    = List.filter isDigitOrDot (list_ascii_of_string value)
  /\ parseCurrency value
     = (if isNaN (parseFloat (stripNonNumeric value)) then 0%float
        else parseFloat (stripNonNumeric value))
  /\ parseCurrency value
     = match strDecimalLiteral (stripNonNumeric value) with
       | Some lit => toNumber lit
       | None => 0%float
       end
  /\ parseCurrency "" = 0%float
  /\ parseCurrency "abc" = 0%float
  /\ parseCurrency "." = 0%float
  /\ parseCurrency ".." = 0%float
  /\ parseCurrency "£1,234.56" = 1234.56%float.
Proof.
  split; [apply stripNonNumeric_filter|].
  split; [reflexivity|].
  split; [apply parseCurrency_literal|].
  repeat split; vm_compute; reflexivity.
Qed.

(** C10: [parseCurrency] never returns a negative number or NaN: the result
    is at least 0; a minus sign is deleted with the other characters, so the
    pound amount -50.00 parses to 50. *)
Theorem parseCurrency_nonnegative (value : string) :
  PrimFloat.leb 0 (parseCurrency value) = true
  /\ isNaN (parseCurrency value) = false
  /\ parseCurrency "£-50.00" = 50%float.
Proof.
  assert (Hn : nonNegative (Prim2SF (parseCurrency value))).
  { rewrite parseCurrency_literal.
    destruct (strDecimalLiteral (stripNonNumeric value)) as [lit|] eqn:Hlit.
    - apply toNumber_unsignedFinite.
      exact (strDecimalLiteral_numeric _ _ (stripNonNumeric_allOf value) Hlit).
    - vm_compute. exact I. }
  split; [apply nonNegative_leb, Hn|].
  split; [apply nonNegative_is_nan, Hn|].
  vm_compute. reflexivity.
Qed.

End CurrencyFacts.

(** ** Form validation *)

Module ValidationFacts.
Import Currency.
Local Open Scope string_scope.

Lemma validateAmount_empty :
  Validation.validateAmount "" = Some "Amount is required".
Proof. reflexivity. Qed.

Lemma validateAmount_nonempty (amount : string) :
  amount <> "" ->
  Validation.validateAmount amount
  = if isNaN (parseFloat amount) || PrimFloat.leb (parseFloat amount) 0
    then Some "Amount must be a positive number"
    else if PrimFloat.ltb 1000000 (parseFloat amount)
         then Some "Amount seems unreasonably large"
         else None.
Proof.
  intros Hne. unfold Validation.validateAmount.
  destruct (decide (amount = "")) as [He|_]; [contradiction|reflexivity].
Qed.

(** A number in the accepted range is not NaN, exceeds 0 and does not exceed
    1,000,000; a number above 1,000,000 is not NaN and exceeds 0. *)
Lemma above_million (v : float) :
  PrimFloat.ltb 1000000 v = true ->
  isNaN v = false /\ PrimFloat.leb v 0 = false.
Proof.
  intros Hv. split.
  - exact (JsNumber.ltb_not_nan_r _ _ Hv).
  - apply JsNumber.ltb_not_leb.
    apply (JsNumber.ltb_trans _ 1000000%float); [reflexivity|exact Hv].
Qed.

(** C4: the amount rule.  An empty amount gives "Amount is required"; an
    amount that parses to NaN or to a number that is at most 0 gives "Amount
    must be a positive number"; a number above 1,000,000 gives "Amount seems
    unreasonably large"; every other amount, 1,000,000 itself included,
    gives no error, so the accepted numbers are those above 0 and at most
    1,000,000. *)
Theorem amount_rule (dateValue : string -> option Z) (now : Z)
    (formData : Validation.ExpenseFormData) :
  let amount := Validation.amount formData in
  let value := parseFloat amount in
  let error :=
    Validation.errors_amount
      (Validation.validateExpenseForm dateValue now formData) in
  (amount = "" -> error = Some "Amount is required")
  /\ (amount <> "" -> isNaN value = true \/ PrimFloat.leb value 0 = true ->
        error = Some "Amount must be a positive number")
  /\ (amount <> "" -> PrimFloat.ltb 1000000 value = true ->
        error = Some "Amount seems unreasonably large")
  /\ (error = None <->
        amount <> "" /\ PrimFloat.ltb 0 value = true
        /\ PrimFloat.leb value 1000000 = true)
  /\ Validation.validateAmount "1000000" = None.
Proof.
  destruct formData as [d amount c ds]. simpl.
  split; [|split; [|split; [|split; [split|]]]].
  - intros ->. reflexivity.
  - intros Hne Hbad. rewrite (validateAmount_nonempty _ Hne).
    destruct Hbad as [-> | ->]; [reflexivity|].
    rewrite orb_true_r. reflexivity.
  - intros Hne Hbig. rewrite (validateAmount_nonempty _ Hne).
    destruct (above_million _ Hbig) as [-> ->]. simpl. rewrite Hbig.
    reflexivity.
  - destruct (decide (amount = "")) as [->|Hne]; [discriminate|].
    rewrite (validateAmount_nonempty _ Hne).
    destruct (isNaN (parseFloat amount)) eqn:Hnan; [discriminate|].
    destruct (PrimFloat.leb (parseFloat amount) 0) eqn:Hle; [discriminate|].
    destruct (PrimFloat.ltb 1000000 (parseFloat amount)) eqn:Hbig;
      [discriminate|].
    intros _. split; [exact Hne|split].
    + apply JsNumber.not_leb_ltb; [exact Hnan|reflexivity|exact Hle].
    + apply JsNumber.not_ltb_leb; [reflexivity|exact Hnan|exact Hbig].
  - intros (Hne & Hpos & Hle). rewrite (validateAmount_nonempty _ Hne).
    unfold isNaN. rewrite (JsNumber.ltb_not_nan_r _ _ Hpos).
    rewrite (JsNumber.ltb_not_leb _ _ Hpos).
    rewrite (JsNumber.leb_not_ltb _ _ Hle). reflexivity.
  - vm_compute. reflexivity.
Qed.

Lemma startOfUtcDay_le (now : Z) : (Validation.startOfUtcDay now <= now)%Z.
Proof.
  unfold Validation.startOfUtcDay.
  pose proof (Z.mod_pos_bound now 86400000 ltac:(lia)). lia.
Qed.

(** C6: the date rule.  An empty date gives "Date is required"; a date whose
    moment is strictly later than now gives "Date cannot be in the future";
    a date whose moment is now or earlier gives no error, and so does
    today's date, whose moment is the start of the current day. *)
Theorem date_rule (dateValue : string -> option Z) (now : Z)
    (formData : Validation.ExpenseFormData) :
  let date := Validation.date formData in
  let error :=
    Validation.errors_date
      (Validation.validateExpenseForm dateValue now formData) in
  (date = "" -> error = Some "Date is required")
  /\ (forall t, date <> "" -> dateValue date = Some t -> (now < t)%Z ->
        error = Some "Date cannot be in the future")
  /\ (forall t, date <> "" -> dateValue date = Some t -> (t <= now)%Z ->
        error = None)
  /\ (date <> "" ->
      dateValue date = Some (Validation.startOfUtcDay now) -> error = None)
  /\ (error = Some "Date is required" -> date = "")
  /\ (error = Some "Date cannot be in the future" ->
        exists t, dateValue date = Some t /\ (now < t)%Z).
Proof.
  destruct formData as [date a c ds]. simpl.
  unfold Validation.validateDate.
  assert (Hpast : forall t, date <> "" -> dateValue date = Some t ->
                    (t <= now)%Z ->
                    (if decide (date = "") then Some "Date is required"
                     else match dateValue date with
                          | Some t0 => if (now <? t0)%Z
                                       then Some "Date cannot be in the future"
                                       else None
                          | None => None
                          end) = None).
  { intros t Hne Ht Hle.
    destruct (decide (date = "")) as [He|_]; [contradiction|].
    rewrite Ht. destruct (Z.ltb_spec now t); [lia|reflexivity]. }
  split; [|split; [|split; [|split; [|split]]]].
  - intros ->. reflexivity.
  - intros t Hne Ht Hlt.
    destruct (decide (date = "")) as [He|_]; [contradiction|].
    rewrite Ht. destruct (Z.ltb_spec now t); [reflexivity|lia].
  - exact Hpast.
  - intros Hne Ht. exact (Hpast _ Hne Ht (startOfUtcDay_le now)).
  - destruct (decide (date = "")) as [He|_]; [intros _; exact He|].
    destruct (dateValue date) as [t|]; [|discriminate].
    destruct (now <? t)%Z; discriminate.
  - destruct (decide (date = "")) as [He|_]; [discriminate|].
    destruct (dateValue date) as [t|]; [|discriminate].
    destruct (Z.ltb_spec now t); [|discriminate].
    intros _. exists t. split; [reflexivity|assumption].
Qed.

End ValidationFacts.

(** ** CSV export *)

Module CsvExportFacts.
Import CsvExport.
Local Open Scope string_scope.

Lemma append_cons (c : ascii) (s t : string) :
  String c s ++ t = String c (s ++ t).
Proof. reflexivity. Qed.

Lemma append_assoc (s t u : string) : (s ++ t) ++ u = s ++ (t ++ u).
Proof.
  induction s as [|c s IH]; [reflexivity|].
  rewrite !append_cons, IH. reflexivity.
Qed.

Lemma append_nil_r (s : string) : s ++ "" = s.
Proof.
  induction s as [|c s IH]; [reflexivity|].
  rewrite append_cons, IH. reflexivity.
Qed.

Lemma join_header (header : string) (rows : list string) :
  join newline (header :: rows) = header ++ appendRows rows.
Proof.
  revert header. induction rows as [|row rows IH]; intros header.
  - simpl. rewrite append_nil_r. reflexivity.
  - change (join newline (header :: row :: rows))
      with (header ++ newline ++ join newline (row :: rows)).
    rewrite IH. simpl. reflexivity.
Qed.

Lemma firstLine_header (header : string) (rows : list string) :
  firstLine header = header ->
  firstLine (header ++ appendRows rows) = header.
Proof.
  revert rows. induction header as [|c header IH]; intros rows Hh.
  - destruct rows; reflexivity.
  - simpl in *. destruct (Ascii.eqb c "010"); [discriminate Hh|].
    injection Hh as Hh. rewrite (IH rows Hh). reflexivity.
Qed.

Lemma mapM_length {A B} (f : A -> option B) (l : list A) (k : list B) :
  mapM f l = Some k -> List.length k = List.length l.
Proof.
  intros Hk. apply mapM_Some_1 in Hk. symmetry.
  exact (Forall2_length _ _ _ Hk).
Qed.

Lemma generateCSV_rows (numberToString : float -> string)
    (data : list (Expense float)) :
  generateCSV numberToString data
  = "Date,Category,Amount,Description"
    ++ appendRows (List.map (modalRow numberToString) data).
Proof.
  unfold generateCSV. rewrite join_header. f_equal.
  rewrite List.map_map. reflexivity.
Qed.

Lemma exportToCSV_nonempty (toFixed2 : float -> string)
    (formatDate : string -> option string) (expense : Expense float)
    (expenses : list (Expense float)) :
  exportToCSV toFixed2 formatDate (expense :: expenses)
  = match mapM (exportRow toFixed2 formatDate) (expense :: expenses) with
    | Some rows =>
        Some (join newline ("Date,Category,Amount (GBP),Description" :: rows))
    | None => None
    end.
Proof. reflexivity. Qed.

(** C2, as amended: the export modal's CSV starts with the line
    Date,Category,Amount,Description and the one-click export's CSV with the
    line Date,Category,Amount (GBP),Description; in both the header is
    followed by one row per expense, in order, each after a line feed.  The
    one-click export produces its text for every non-empty list whose dates
    all format. *)
Theorem csv_header_then_rows (numberToString toFixed2 : float -> string)
    (formatDate : string -> option string) (expenses : list (Expense float)) :
  generateCSV numberToString expenses
    = "Date,Category,Amount,Description"
      ++ appendRows (List.map (modalRow numberToString) expenses)
  /\ firstLine (generateCSV numberToString expenses)
     = "Date,Category,Amount,Description"
  /\ (forall csv, exportToCSV toFixed2 formatDate expenses = Some csv ->
        expenses <> []
        /\ exists rows,
             mapM (exportRow toFixed2 formatDate) expenses = Some rows
             /\ List.length rows = List.length expenses
             /\ csv = "Date,Category,Amount (GBP),Description" ++ appendRows rows
             /\ firstLine csv = "Date,Category,Amount (GBP),Description")
  /\ (expenses <> [] ->
      (forall expense, In expense expenses ->
         is_Some (formatDate (date expense))) ->
      is_Some (exportToCSV toFixed2 formatDate expenses)).
Proof.
  split; [apply generateCSV_rows|].
  split; [rewrite generateCSV_rows; apply firstLine_header; reflexivity|].
  split.
  - intros csv Hcsv.
    destruct expenses as [|expense expenses]; [discriminate Hcsv|].
    split; [discriminate|].
    rewrite exportToCSV_nonempty in Hcsv.
    destruct (mapM (exportRow toFixed2 formatDate) (expense :: expenses))
      as [rows|] eqn:Hrows; [|discriminate Hcsv].
    replace csv
      with (join newline ("Date,Category,Amount (GBP),Description" :: rows))
      by congruence.
    exists rows.
    split; [reflexivity|].
    split; [exact (mapM_length _ _ _ Hrows)|].
    rewrite join_header.
    split; [reflexivity|apply firstLine_header; reflexivity].
  - intros Hne Hdates.
    destruct expenses as [|expense expenses]; [contradiction|].
    rewrite exportToCSV_nonempty.
    assert (Hrows : is_Some (mapM (exportRow toFixed2 formatDate)
                               (expense :: expenses))).
    { apply mapM_is_Some. apply Forall_forall. intros e He.
      apply list_elem_of_In in He.
      destruct (Hdates e He) as [d Hd]. unfold compose, exportRow.
      cbv beta. rewrite Hd.
      eexists. reflexivity. }
    destruct Hrows as [rows ->]. eexists. reflexivity.
Qed.

(** C2 fails for the one-click export: for one expense of 12.5 on 15 January
    2024 (which [toFixed(2)] prints as 12.50 and [format] as 15/01/2024) the
    first line is Date,Category,Amount (GBP),Description. *)
Lemma exportToCSV_header_differs :
  exists csv,
    exportToCSV (fun _ => "12.50") (fun _ => Some "15/01/2024")
      [mkExpense "1" "2024-01-15" 12.5%float Food "lunch" "t1" "t1"] = Some csv
    /\ firstLine csv = "Date,Category,Amount (GBP),Description"
    /\ firstLine csv <> "Date,Category,Amount,Description".
Proof.
  eexists. split; [reflexivity|]. split; [reflexivity|]. discriminate.
Qed.

(** *** Reading the description back *)

Lemma readEscaped_replaceQuotes (description unread : string) :
  (forall rest, unread <> String dquote rest) ->
  readEscaped (replaceQuotes description ++ String dquote unread)
  = Some (description, unread).
Proof.
  intros Hunread. induction description as [|c description IH].
  - simpl. destruct unread as [|c' rest]; [reflexivity|].
    destruct (Ascii.eqb_spec c' dquote) as [->|Hc]; [|reflexivity].
    destruct (Hunread rest eq_refl).
  - simpl. destruct (Ascii.eqb_spec c dquote) as [->|Hc].
    + simpl. rewrite IH. reflexivity.
    + simpl. destruct (Ascii.eqb_spec c dquote) as [Hc'|_]; [contradiction|].
      rewrite IH. reflexivity.
Qed.

Lemma readField_quoteDescription (description unread : string) :
  (forall rest, unread <> String dquote rest) ->
  readField (quoteDescription description ++ unread)
  = Some (description, unread).
Proof.
  intros Hunread. unfold quoteDescription. simpl.
  rewrite append_assoc. simpl.
  apply readEscaped_replaceQuotes, Hunread.
Qed.

(** C5: both exports write the description as the last field of its row,
    between double quotes and with every double quote of the text doubled;
    an RFC 4180 reader positioned at that field, whether the field ends the
    text or a line feed follows, returns the original description and stops
    right after the field. *)
Theorem description_round_trip (numberToString toFixed2 : float -> string)
    (formatDate : string -> option string) (expense : Expense float) :
  let field := quoteDescription (description expense) in
  field
    = String dquote (replaceQuotes (description expense)
                     ++ String dquote EmptyString)
  /\ generateCSV numberToString [expense]
     = "Date,Category,Amount,Description" ++ newline
       ++ date expense ++ "," ++ categoryName (category expense) ++ ","
       ++ numberToString (amount expense) ++ "," ++ field
  /\ (forall formatted, formatDate (date expense) = Some formatted ->
        exportRow toFixed2 formatDate expense
        = Some (formatted ++ "," ++ categoryName (category expense) ++ ","
                ++ toFixed2 (amount expense) ++ "," ++ field))
  /\ readField field = Some (description expense, EmptyString)
  /\ forall rest,
       readField (field ++ newline ++ rest)
       = Some (description expense, newline ++ rest).
Proof.
  cbv zeta. split; [reflexivity|].
  split.
  { rewrite generateCSV_rows. unfold modalRow, List.map, appendRows.
    rewrite append_nil_r. reflexivity. }
  split.
  { intros formatted Hf. unfold exportRow. rewrite Hf. reflexivity. }
  split.
  - rewrite <- (append_nil_r (quoteDescription (description expense))).
    apply readField_quoteDescription. intros rest. discriminate.
  - intros rest. apply readField_quoteDescription. intros rest'.
    discriminate.
Qed.

End CsvExportFacts.

(** ** Local storage *)

Module StorageFacts.
Import Storage.
Local Open Scope string_scope.

(** *** The trip through JSON *)

Lemma jsonAmount_twice (a : option float) : jsonAmount (jsonAmount a) = jsonAmount a.
Proof.
  destruct a as [v|]; [|reflexivity]. simpl.
  destruct (PrimFloat.is_nan v || PrimFloat.is_infinity v) eqn:Hv; [reflexivity|].
  destruct (PrimFloat.is_zero v) eqn:Hz; simpl.
  - reflexivity.
  - rewrite Hv, Hz. reflexivity.
Qed.

Lemma jsonExpense_twice (expense : Expense (option float)) :
  jsonExpense (jsonExpense expense) = jsonExpense expense.
Proof. unfold jsonExpense. simpl. rewrite jsonAmount_twice. reflexivity. Qed.

Lemma jsonExpense_survives (expense : Expense (option float)) :
  survivesJson (amount expense) <-> jsonExpense expense = expense.
Proof.
  unfold survivesJson. destruct expense as [i d a c ds ca ua]. unfold jsonExpense.
  simpl. split; [intros ->; reflexivity|intros Heq; congruence].
Qed.

Lemma map_jsonExpense_twice (expenses : list (Expense (option float))) :
  List.map jsonExpense (List.map jsonExpense expenses)
  = List.map jsonExpense expenses.
Proof.
  rewrite List.map_map. apply List.map_ext. intros expense.
  apply jsonExpense_twice.
Qed.

Lemma map_jsonExpense_survives (expenses : list (Expense (option float))) :
  Forall (fun expense => survivesJson (amount expense)) expenses ->
  List.map jsonExpense expenses = expenses.
Proof.
  induction 1 as [|expense expenses Hx _ IH]; simpl; [reflexivity|].
  rewrite IH. f_equal. apply jsonExpense_survives, Hx.
Qed.

Lemma map_jsonExpense_insert (expenses : list (Expense (option float))) (index : nat)
    (expense : Expense (option float)) :
  List.map jsonExpense (<[index := expense]> expenses)
  = <[index := jsonExpense expense]> (List.map jsonExpense expenses).
Proof.
  revert index. induction expenses as [|x expenses IH]; intros index;
    [reflexivity|].
  destruct index as [|index]; simpl; [reflexivity|].
  f_equal. apply IH.
Qed.

Lemma map_jsonExpense_filter (p : string -> bool)
    (expenses : list (Expense (option float))) :
  List.map jsonExpense (List.filter (fun exp => p (id exp)) expenses)
  = List.filter (fun exp => p (id exp)) (List.map jsonExpense expenses).
Proof.
  induction expenses as [|x expenses IH]; simpl; [reflexivity|].
  destruct (p (id x)); simpl; rewrite IH; reflexivity.
Qed.

(** What has been read from storage has been through JSON already. *)
Lemma getExpenses_json (ls : LocalStorage) :
  List.map jsonExpense (getExpenses ls) = getExpenses ls.
Proof.
  unfold getExpenses. destruct (hasWindow ls); [|reflexivity].
  destruct (item ls) as [data|]; [|reflexivity].
  apply map_jsonExpense_twice.
Qed.

Lemma getExpenses_survive (ls : LocalStorage) :
  Forall (fun expense => survivesJson (amount expense)) (getExpenses ls).
Proof.
  rewrite <- getExpenses_json. apply Forall_forall. intros expense Hin.
  apply list_elem_of_In, List.in_map_iff in Hin.
  destruct Hin as (other & <- & _). apply jsonAmount_twice.
Qed.

(** What is read back after a save: the saved array after its trip through
    JSON, unless there is no window or the write throws, in which case
    storage is as before. *)
Lemma getExpenses_saveExpenses (expenses : list (Expense (option float)))
    (ls : LocalStorage) :
  getExpenses (saveExpenses expenses ls)
  = if hasWindow ls && negb (setItemThrows ls expenses)
    then List.map jsonExpense expenses
    else getExpenses ls.
Proof.
  destruct ls as [window data throws]. unfold saveExpenses, getExpenses.
  simpl. destruct window; [|reflexivity].
  destruct (throws expenses); reflexivity.
Qed.

Lemma updateExpense_found (now id0 : string) (updates : ExpenseUpdates)
    (ls : LocalStorage) (index : nat) (expense : Expense (option float)) :
  list_find (fun exp => id exp = id0) (getExpenses ls) = Some (index, expense) ->
  updateExpense now id0 updates ls
  = (Some (applyUpdates expense updates now),
     saveExpenses
       (<[index := applyUpdates expense updates now]> (getExpenses ls)) ls).
Proof. intros Hfind. unfold updateExpense. rewrite Hfind. reflexivity. Qed.

(** C8: when the stored collection holds a record with the given id,
    [updateExpense] returns the first such record with the supplied fields
    replaced and [updatedAt] set to the current time; its [id] and
    [createdAt], and every field that was not supplied, are as before.  The
    stored collection keeps its length and every record at another position;
    the record at the position found becomes the returned one as JSON keeps
    it (the same record, unless the new amount is NaN, infinite or the
    negative zero), unless the write to storage throws, in which case the
    collection is as before. *)
Theorem updateExpense_frame (now id0 : string) (updates : ExpenseUpdates)
    (ls : LocalStorage) :
  (exists expense, In expense (getExpenses ls) /\ id expense = id0) ->
  exists index old updated ls',
    getExpenses ls !! index = Some old
    /\ id old = id0
    /\ (forall j other, j < index -> getExpenses ls !! j = Some other ->
          id other <> id0)
    /\ updateExpense now id0 updates ls = (Some updated, ls')
    /\ id updated = id old
    /\ createdAt updated = createdAt old
    /\ updatedAt updated = now
    /\ date updated = default (date old) (new_date updates)
    /\ amount updated
       = match new_amount updates with
         | Some v => Some v
         | None => amount old
         end
    /\ category updated = default (category old) (new_category updates)
    /\ description updated = default (description old) (new_description updates)
    /\ List.length (getExpenses ls') = List.length (getExpenses ls)
    /\ (forall j, j <> index -> getExpenses ls' !! j = getExpenses ls !! j)
    /\ getExpenses ls' !! index
       = Some (if setItemThrows ls (<[index := updated]> (getExpenses ls))
               then old else jsonExpense updated)
    /\ (survivesJson (amount updated) -> jsonExpense updated = updated).
Proof.
  intros (expense & Hin & Hid).
  assert (Hw : hasWindow ls = true).
  { unfold getExpenses in Hin. destruct (hasWindow ls); [reflexivity|].
    destruct Hin. }
  destruct (list_find (fun exp => id exp = id0) (getExpenses ls))
    as [[index old]|] eqn:Hfind.
  - pose proof Hfind as Hspec. apply list_find_Some in Hspec.
    destruct Hspec as (Hlook & Hold & Hfirst).
    exists index, old, (applyUpdates old updates now),
      (saveExpenses (<[index := applyUpdates old updates now]> (getExpenses ls)) ls).
    split; [exact Hlook|]. split; [exact Hold|].
    split. { intros j other Hj Hother. exact (Hfirst j other Hother Hj). }
    split; [apply updateExpense_found, Hfind|].
    do 7 (split; [reflexivity|]).
    rewrite getExpenses_saveExpenses, Hw. simpl.
    split; [|split; [|split]].
    + destruct (setItemThrows ls _); simpl; [reflexivity|].
      rewrite List.length_map. apply length_insert.
    + intros j Hj. destruct (setItemThrows ls _); simpl; [reflexivity|].
      rewrite map_jsonExpense_insert, getExpenses_json.
      apply list_lookup_insert_ne. congruence.
    + destruct (setItemThrows ls _); simpl; [exact Hlook|].
      rewrite map_jsonExpense_insert, getExpenses_json.
      apply list_lookup_insert_eq. exact (lookup_lt_Some _ _ _ Hlook).
    + intros Hs. apply jsonExpense_survives. exact Hs.
  - apply list_find_None in Hfind. rewrite Forall_forall in Hfind.
    apply list_elem_of_In in Hin. destruct (Hfind expense Hin Hid).
Qed.

Lemma updateExpense_frame_witness :
  exists index old updated ls',
    getExpenses sampleStorage !! index = Some old
    /\ id old = "b"
    /\ (forall j other, j < index ->
          getExpenses sampleStorage !! j = Some other -> id other <> "b")
    /\ updateExpense "t3" "b" (mkUpdates None (Some 45%float) None None)
         sampleStorage = (Some updated, ls')
    /\ id updated = id old
    /\ createdAt updated = createdAt old
    /\ updatedAt updated = "t3"
    /\ date updated = default (date old) None
    /\ amount updated = Some 45%float
    /\ category updated = default (category old) None
    /\ description updated = default (description old) None
    /\ List.length (getExpenses ls') = List.length (getExpenses sampleStorage)
    /\ (forall j, j <> index ->
          getExpenses ls' !! j = getExpenses sampleStorage !! j)
    /\ getExpenses ls' !! index
       = Some (if setItemThrows sampleStorage
                    (<[index := updated]> (getExpenses sampleStorage))
               then old else jsonExpense updated)
    /\ (survivesJson (amount updated) -> jsonExpense updated = updated).
Proof.
  apply (updateExpense_frame "t3" "b"
           (mkUpdates None (Some 45%float) None None) sampleStorage).
  exists (mkExpense "b" "2024-01-16" (Some 40%float) Bills "water" "t2" "t2").
  split; [vm_compute; right; left; reflexivity|reflexivity].
Defined.

End StorageFacts.

(** ** Local storage: the other operations *)

Module StorageOps.
Import Storage.

Lemma writable_saveExpenses (expenses : list (Expense (option float))) (ls : LocalStorage) :
  writable ls -> writable (saveExpenses expenses ls).
Proof.
  intros [Hw Ht]. unfold saveExpenses. rewrite Hw, Ht.
  split; [reflexivity|exact Ht].
Qed.

Lemma getExpenses_saved (expenses : list (Expense (option float))) (ls : LocalStorage) :
  writable ls ->
  getExpenses (saveExpenses expenses ls) = List.map jsonExpense expenses.
Proof.
  intros [Hw Ht]. rewrite StorageFacts.getExpenses_saveExpenses, Hw, Ht.
  reflexivity.
Qed.

Lemma getExpenses_addExpense (uuid now : string) (expense : ExpenseInput)
    (ls : LocalStorage) :
  writable ls ->
  getExpenses (addExpense uuid now expense ls).2
  = getExpenses ls
    ++ [jsonExpense
          (mkExpense uuid (input_date expense) (Some (input_amount expense))
             (input_category expense) (input_description expense) now now)].
Proof.
  intros Hw. unfold addExpense. simpl.
  rewrite (getExpenses_saved _ _ Hw), List.map_app,
    StorageFacts.getExpenses_json.
  reflexivity.
Qed.

Lemma writable_addExpense (uuid now : string) (expense : ExpenseInput)
    (ls : LocalStorage) :
  writable ls -> writable (addExpense uuid now expense ls).2.
Proof. intros Hw. unfold addExpense. simpl. apply writable_saveExpenses, Hw. Qed.

(** X1: Save, then read, with working storage: what is read is the saved
    array as JSON keeps it, that is with [null] for an amount that is NaN
    or infinite and 0 for the negative zero; it is the saved array itself
    when every amount survives JSON, in particular when the array was read
    from storage.  An earlier save is overwritten, and after
    [clearAllExpenses] the collection is empty. *)
Theorem saved_is_read_back (first second : list (Expense (option float)))
    (ls : LocalStorage) :
  writable ls ->
  getExpenses (saveExpenses first ls) = List.map jsonExpense first
  /\ (Forall (fun expense => survivesJson (amount expense)) first ->
      getExpenses (saveExpenses first ls) = first)
  /\ getExpenses (saveExpenses (getExpenses ls) ls) = getExpenses ls
  /\ getExpenses (saveExpenses second (saveExpenses first ls))
     = List.map jsonExpense second
  /\ getExpenses (clearAllExpenses (saveExpenses first ls)) = [].
Proof.
  intros Hw. split; [apply getExpenses_saved, Hw|].
  split.
  { intros Hall. rewrite (getExpenses_saved _ _ Hw).
    apply StorageFacts.map_jsonExpense_survives, Hall. }
  split.
  { rewrite (getExpenses_saved _ _ Hw). apply StorageFacts.getExpenses_json. }
  split; [apply getExpenses_saved, writable_saveExpenses, Hw|].
  unfold clearAllExpenses.
  rewrite (getExpenses_saved _ _ (writable_saveExpenses _ _ Hw)). reflexivity.
Qed.

Lemma saved_is_read_back_witness :
  let first :=
    [mkExpense "n" "2024-02-01" (Some nan) Other "pen" "t3" "t3";
     mkExpense "z" "2024-02-02" (Some (-0)%float) Food "tea" "t4" "t4"] in
  let second := getExpenses sampleStorage in
  getExpenses (saveExpenses first sampleStorage)
  = [mkExpense "n" "2024-02-01" None Other "pen" "t3" "t3";
     mkExpense "z" "2024-02-02" (Some 0%float) Food "tea" "t4" "t4"]
  /\ (Forall (fun expense => survivesJson (amount expense)) first ->
      getExpenses (saveExpenses first sampleStorage) = first)
  /\ getExpenses (saveExpenses (getExpenses sampleStorage) sampleStorage)
     = getExpenses sampleStorage
  /\ getExpenses (saveExpenses second (saveExpenses first sampleStorage))
     = List.map jsonExpense second
  /\ getExpenses (clearAllExpenses (saveExpenses first sampleStorage)) = [].
Proof.
  apply (saved_is_read_back
           [mkExpense "n" "2024-02-01" (Some nan) Other "pen" "t3" "t3";
            mkExpense "z" "2024-02-02" (Some (-0)%float) Food "tea" "t4" "t4"]
           (getExpenses sampleStorage) sampleStorage).
  split; [reflexivity|]. intros expenses. reflexivity.
Defined.

(** X2: Without a window (server-side rendering) nothing is read and nothing is
    written: every read gives the empty collection and every operation
    leaves the storage as it is; [addExpense] still returns a record, which
    is stored nowhere, [updateExpense] returns [null] and [deleteExpense]
    returns [false]. *)
Theorem no_window_no_storage (uuid now id0 : string) (expense : ExpenseInput)
    (updates : ExpenseUpdates) (expenses : list (Expense (option float)))
    (ls : LocalStorage) :
  hasWindow ls = false ->
  getExpenses ls = []
  /\ saveExpenses expenses ls = ls
  /\ clearAllExpenses ls = ls
  /\ (addExpense uuid now expense ls).2 = ls
  /\ id (addExpense uuid now expense ls).1 = uuid
  /\ updateExpense now id0 updates ls = (None, ls)
  /\ deleteExpense id0 ls = (false, ls).
Proof.
  intros Hw.
  assert (Hget : getExpenses ls = []) by (unfold getExpenses; rewrite Hw; reflexivity).
  assert (Hsave : forall es, saveExpenses es ls = ls)
    by (intros es; unfold saveExpenses; rewrite Hw; reflexivity).
  split; [exact Hget|]. split; [apply Hsave|]. split; [apply Hsave|].
  split; [apply Hsave|]. split; [reflexivity|].
  split.
  - unfold updateExpense. rewrite Hget. reflexivity.
  - unfold deleteExpense. rewrite Hget. reflexivity.
Qed.

Lemma no_window_no_storage_witness :
  let ls := mkStorage false (Some (getExpenses sampleStorage)) (fun _ => false) in
  let expense := mkInput "2024-02-01" 3.5%float Other "pen" in
  let updates := mkUpdates None (Some 45%float) None None in
  getExpenses ls = []
  /\ saveExpenses (getExpenses sampleStorage) ls = ls
  /\ clearAllExpenses ls = ls
  /\ (addExpense "c" "t3" expense ls).2 = ls
  /\ id (addExpense "c" "t3" expense ls).1 = "c"
  /\ updateExpense "t3" "b" updates ls = (None, ls)
  /\ deleteExpense "b" ls = (false, ls).
Proof.
  apply (no_window_no_storage "c" "t3" "b"
           (mkInput "2024-02-01" 3.5%float Other "pen")
           (mkUpdates None (Some 45%float) None None)
           (getExpenses sampleStorage)
           (mkStorage false (Some (getExpenses sampleStorage)) (fun _ => false))).
  reflexivity.
Defined.

(** X3: [addExpense] with working storage: the returned record carries the given
    fields, the fresh id and the current time as both timestamps, and the
    stored collection afterwards is the old one followed by that record as
    JSON keeps it: the record itself when its amount is a finite number
    other than the negative zero, and otherwise with [null] (for NaN and
    the infinities) or 0 (for the negative zero) as its amount. *)
Theorem addExpense_appends (uuid now : string) (expense : ExpenseInput)
    (ls : LocalStorage) :
  writable ls ->
  let newExpense := (addExpense uuid now expense ls).1 in
  let ls' := (addExpense uuid now expense ls).2 in
  newExpense
    = mkExpense uuid (input_date expense) (Some (input_amount expense))
        (input_category expense) (input_description expense) now now
  /\ createdAt newExpense = updatedAt newExpense
  /\ getExpenses ls' = getExpenses ls ++ [jsonExpense newExpense]
  /\ (forall j other, getExpenses ls !! j = Some other ->
        getExpenses ls' !! j = Some other)
  /\ getExpenses ls' !! List.length (getExpenses ls)
     = Some (jsonExpense newExpense)
  /\ (getExpenses ls' = getExpenses ls ++ [newExpense]
      <-> survivesJson (Some (input_amount expense)))
  /\ writable ls'.
Proof.
  intros Hw. cbv zeta.
  rewrite (getExpenses_addExpense uuid now expense ls Hw).
  unfold addExpense. cbn [fst snd].
  split; [reflexivity|]. split; [reflexivity|]. split; [reflexivity|].
  split.
  { intros j other Hj. apply lookup_app_l_Some. exact Hj. }
  split.
  { rewrite lookup_app_r by reflexivity.
    rewrite Nat.sub_diag. reflexivity. }
  split.
  { split.
    - intros Heq. apply List.app_inv_head in Heq. injection Heq as Heq.
      exact Heq.
    - intros Hs. do 2 f_equal.
      apply (StorageFacts.jsonExpense_survives
               (mkExpense uuid (input_date expense) (Some (input_amount expense))
                  (input_category expense) (input_description expense) now now)).
      exact Hs. }
  apply writable_saveExpenses, Hw.
Qed.

Lemma addExpense_appends_witness :
  let expense := mkInput "2024-02-01" 3.5%float Other "pen" in
  let newExpense := (addExpense "c" "t3" expense sampleStorage).1 in
  let ls' := (addExpense "c" "t3" expense sampleStorage).2 in
  newExpense = mkExpense "c" "2024-02-01" (Some 3.5%float) Other "pen" "t3" "t3"
  /\ createdAt newExpense = updatedAt newExpense
  /\ getExpenses ls' = getExpenses sampleStorage ++ [jsonExpense newExpense]
  /\ (forall j other, getExpenses sampleStorage !! j = Some other ->
        getExpenses ls' !! j = Some other)
  /\ getExpenses ls' !! List.length (getExpenses sampleStorage)
     = Some (jsonExpense newExpense)
  /\ (getExpenses ls' = getExpenses sampleStorage ++ [newExpense]
      <-> survivesJson (Some 3.5%float))
  /\ writable ls'.
Proof.
  apply (addExpense_appends "c" "t3" (mkInput "2024-02-01" 3.5%float Other "pen")
           sampleStorage).
  split; [reflexivity|]. intros expenses. reflexivity.
Defined.

(** X4: When the write throws (the quota is exceeded), [addExpense] swallows the
    error and still returns the new record, but the storage is exactly as
    before: the record is in the stored collection only if an equal record
    was already there. *)
Theorem addExpense_write_fails (uuid now : string) (expense : ExpenseInput)
    (ls : LocalStorage) :
  setItemThrows ls (getExpenses ls ++ [(addExpense uuid now expense ls).1]) = true ->
  (addExpense uuid now expense ls).1
    = mkExpense uuid (input_date expense) (Some (input_amount expense))
        (input_category expense) (input_description expense) now now
  /\ (addExpense uuid now expense ls).2 = ls
  /\ (stored uuid (addExpense uuid now expense ls).2 <-> stored uuid ls).
Proof.
  intros Hthrow. unfold addExpense in *. simpl in *.
  assert (Hsave : saveExpenses
                    (getExpenses ls
                     ++ [mkExpense uuid (input_date expense)
                           (Some (input_amount expense))
                           (input_category expense) (input_description expense)
                           now now]) ls = ls).
  { unfold saveExpenses. rewrite Hthrow. destruct (hasWindow ls); reflexivity. }
  rewrite Hsave. split; [reflexivity|]. split; [reflexivity|]. reflexivity.
Qed.

Lemma addExpense_write_fails_witness :
  let ls := mkStorage true (Some (getExpenses sampleStorage))
              (fun expenses => (2 <? List.length expenses)%nat) in
  let expense := mkInput "2024-02-01" 3.5%float Other "pen" in
  (addExpense "c" "t3" expense ls).1
    = mkExpense "c" "2024-02-01" (Some 3.5%float) Other "pen" "t3" "t3"
  /\ (addExpense "c" "t3" expense ls).2 = ls
  /\ (stored "c" (addExpense "c" "t3" expense ls).2 <-> stored "c" ls).
Proof.
  apply (addExpense_write_fails "c" "t3"
           (mkInput "2024-02-01" 3.5%float Other "pen")
           (mkStorage true (Some (getExpenses sampleStorage))
              (fun expenses => (2 <? List.length expenses)%nat))).
  reflexivity.
Defined.

(** *** Deleting *)

Lemma filter_length_eq {A} (p : A -> bool) (l : list A) :
  List.length (List.filter p l) = List.length l ->
  List.filter p l = l.
Proof.
  induction l as [|x l IH]; simpl; [reflexivity|].
  destruct (p x); simpl; intros Hlen.
  - f_equal. apply IH. lia.
  - pose proof (List.filter_length_le p l). lia.
Qed.

Lemma keeps_other_ids (id0 : string) (expense : Expense (option float)) :
  negb (String.eqb (id expense) id0) = true <-> id expense <> id0.
Proof.
  destruct (String.eqb_spec (id expense) id0) as [He|Hne]; simpl.
  - split; [discriminate|contradiction].
  - split; [intros _; exact Hne|reflexivity].
Qed.

Lemma deleteExpense_flag (id0 : string) (ls : LocalStorage) :
  (deleteExpense id0 ls).1 = true <-> stored id0 ls.
Proof.
  unfold deleteExpense, stored.
  destruct (Nat.eqb_spec
              (List.length (List.filter (fun exp => negb (String.eqb (id exp) id0))
                              (getExpenses ls)))
              (List.length (getExpenses ls))) as [Hlen|Hlen]; simpl.
  - split; [discriminate|].
    intros (expense & Hin & Hid). apply filter_length_eq in Hlen.
    rewrite <- Hlen in Hin. apply List.filter_In in Hin.
    destruct Hin as [_ Hkeep]. apply keeps_other_ids in Hkeep. contradiction.
  - split; [intros _|reflexivity].
    destruct (List.Exists_dec (fun exp => id exp = id0) (getExpenses ls))
      as [Hex|Hnex].
    { intros exp. apply String.string_dec. }
    + apply List.Exists_exists in Hex. exact Hex.
    + exfalso. apply Hlen. f_equal.
      apply List.forallb_filter_id. apply List.forallb_forall.
      intros exp Hin. apply keeps_other_ids. intros Hid. apply Hnex.
      apply List.Exists_exists. exists exp. split; assumption.
Qed.

Lemma getExpenses_deleteExpense (id0 : string) (ls : LocalStorage) :
  writable ls ->
  getExpenses (deleteExpense id0 ls).2
  = List.filter (fun exp => negb (String.eqb (id exp) id0)) (getExpenses ls).
Proof.
  intros Hw. unfold deleteExpense.
  destruct (Nat.eqb_spec
              (List.length (List.filter (fun exp => negb (String.eqb (id exp) id0))
                              (getExpenses ls)))
              (List.length (getExpenses ls))) as [Hlen|Hlen]; simpl.
  - symmetry. apply filter_length_eq, Hlen.
  - rewrite (getExpenses_saved _ _ Hw).
    rewrite (StorageFacts.map_jsonExpense_filter
               (fun i => negb (String.eqb i id0))).
    rewrite StorageFacts.getExpenses_json. reflexivity.
Qed.

(** X5: [deleteExpense] returns [true] exactly when a stored record has the id.
    When it returns [false] the storage is untouched.  With working
    storage, what is stored afterwards is the old collection without the
    records that have the id (all of them, should several share it), the
    others in their old order; no record with the id is left. *)
Theorem deleteExpense_removes (id0 : string) (ls : LocalStorage) :
  writable ls ->
  let ls' := (deleteExpense id0 ls).2 in
  ((deleteExpense id0 ls).1 = true <-> stored id0 ls)
  /\ ((deleteExpense id0 ls).1 = false -> ls' = ls)
  /\ getExpenses ls'
     = List.filter (fun exp => negb (String.eqb (id exp) id0)) (getExpenses ls)
  /\ (forall expense, In expense (getExpenses ls') <->
        In expense (getExpenses ls) /\ id expense <> id0)
  /\ ~ stored id0 ls'.
Proof.
  intros Hw. cbv zeta.
  split; [apply deleteExpense_flag|].
  pose proof (getExpenses_deleteExpense id0 ls Hw) as Hget.
  split.
  { unfold deleteExpense.
    destruct (_ =? _)%nat; simpl; [reflexivity|discriminate]. }
  split; [exact Hget|].
  assert (Hin : forall expense, In expense (getExpenses (deleteExpense id0 ls).2)
                  <-> In expense (getExpenses ls) /\ id expense <> id0).
  { intros expense. rewrite Hget, List.filter_In, keeps_other_ids. reflexivity. }
  split; [exact Hin|].
  intros (expense & Hstored & Hid). apply Hin in Hstored. tauto.
Qed.

Lemma deleteExpense_removes_witness :
  let ls' := (deleteExpense "a" sampleStorage).2 in
  ((deleteExpense "a" sampleStorage).1 = true <-> stored "a" sampleStorage)
  /\ ((deleteExpense "a" sampleStorage).1 = false -> ls' = sampleStorage)
  /\ getExpenses ls'
     = List.filter (fun exp => negb (String.eqb (id exp) "a"))
         (getExpenses sampleStorage)
  /\ (forall expense, In expense (getExpenses ls') <->
        In expense (getExpenses sampleStorage) /\ id expense <> "a")
  /\ ~ stored "a" ls'.
Proof.
  apply (deleteExpense_removes "a" sampleStorage).
  split; [reflexivity|]. intros expenses. reflexivity.
Defined.

(** *** Updating *)

(** X6: [updateExpense] with an id that no stored record has returns [null] and
    writes nothing: the storage is the same afterwards. *)
Theorem updateExpense_unknown_id (now id0 : string) (updates : ExpenseUpdates)
    (ls : LocalStorage) :
  ~ stored id0 ls -> updateExpense now id0 updates ls = (None, ls).
Proof.
  intros Hno. unfold updateExpense.
  destruct (list_find (fun exp => id exp = id0) (getExpenses ls))
    as [[index expense]|] eqn:Hfind; [|reflexivity].
  apply list_find_Some in Hfind. destruct Hfind as (Hlook & Hid & _).
  exfalso. apply Hno. exists expense. split; [|exact Hid].
  apply list_elem_of_In. exact (list_elem_of_lookup_2 _ _ _ Hlook).
Qed.

Lemma updateExpense_unknown_id_witness :
  updateExpense "t3" "zz" (mkUpdates None (Some 45%float) None None) sampleStorage
  = (None, sampleStorage).
Proof.
  apply (updateExpense_unknown_id "t3" "zz"
           (mkUpdates None (Some 45%float) None None) sampleStorage).
  intros (expense & Hin & Hid). vm_compute in Hin.
  destruct Hin as [<-|[<-|[]]]; discriminate Hid.
Defined.

(** Updating again the record that JSON kept of an updated one. *)
Lemma applyUpdates_twice (expense : Expense (option float)) (updates : ExpenseUpdates)
    (now : string) :
  survivesJson (amount expense) ->
  applyUpdates (jsonExpense (applyUpdates expense updates now)) updates now
  = applyUpdates expense updates now.
Proof.
  unfold survivesJson. intros Hs.
  destruct updates as [[d|] [a|] [c|] [ds|]]; unfold applyUpdates, jsonExpense;
    simpl; rewrite ?Hs; reflexivity.
Qed.

Lemma updateExpense_stored (now id0 : string) (updates : ExpenseUpdates)
    (ls : LocalStorage) :
  stored id0 ls ->
  exists index old,
    list_find (fun exp => id exp = id0) (getExpenses ls) = Some (index, old).
Proof.
  intros (expense & Hin & Hid).
  destruct (list_find (fun exp => id exp = id0) (getExpenses ls))
    as [[index old]|] eqn:Hfind; [eauto|].
  apply list_find_None in Hfind. rewrite Forall_forall in Hfind.
  apply list_elem_of_In in Hin. destruct (Hfind expense Hin Hid).
Qed.

(** X7: Repeating an update changes nothing more: with working storage, a second
    [updateExpense] with the same id, fields and time returns the same
    record and leaves the same storage as the first. *)
Theorem updateExpense_twice (now id0 : string) (updates : ExpenseUpdates)
    (ls : LocalStorage) :
  writable ls -> stored id0 ls ->
  updateExpense now id0 updates (updateExpense now id0 updates ls).2
  = updateExpense now id0 updates ls.
Proof.
  intros Hw Hstored.
  destruct (updateExpense_stored now id0 updates ls Hstored)
    as (index & old & Hfind).
  rewrite (StorageFacts.updateExpense_found _ _ _ _ _ _ Hfind). simpl.
  set (updated := applyUpdates old updates now).
  set (expenses' := <[index := updated]> (getExpenses ls)).
  apply list_find_Some in Hfind. destruct Hfind as (Hlook & Hid & Hfirst).
  assert (Hlt : index < length (getExpenses ls)) by exact (lookup_lt_Some _ _ _ Hlook).
  assert (Hold : survivesJson (amount old)).
  { pose proof (StorageFacts.getExpenses_survive ls) as Hall.
    rewrite Forall_forall in Hall. apply Hall.
    exact (list_elem_of_lookup_2 _ _ _ Hlook). }
  assert (Hget : getExpenses (saveExpenses expenses' ls)
                 = <[index := jsonExpense updated]> (getExpenses ls)).
  { rewrite (getExpenses_saved _ _ Hw). subst expenses'.
    rewrite StorageFacts.map_jsonExpense_insert, StorageFacts.getExpenses_json.
    reflexivity. }
  assert (Hfind' : list_find (fun exp => id exp = id0)
                     (getExpenses (saveExpenses expenses' ls))
                   = Some (index, jsonExpense updated)).
  { rewrite Hget. apply list_find_Some.
    split; [apply list_lookup_insert_eq, Hlt|].
    split; [exact Hid|].
    intros j other Hj Hji. apply (Hfirst j other); [|exact Hji].
    rewrite list_lookup_insert_ne in Hj by lia. exact Hj. }
  rewrite (StorageFacts.updateExpense_found _ _ _ _ _ _ Hfind').
  subst updated. rewrite (applyUpdates_twice _ _ _ Hold). f_equal.
  rewrite Hget. subst expenses'.
  rewrite list_insert_insert_eq.
  destruct Hw as [Hwin Hthrow]. unfold saveExpenses. simpl.
  rewrite Hwin, !Hthrow. simpl. rewrite Hthrow. reflexivity.
Qed.

Lemma updateExpense_twice_witness :
  updateExpense "t3" "b" (mkUpdates None (Some 45%float) None None)
    (updateExpense "t3" "b" (mkUpdates None (Some 45%float) None None)
       sampleStorage).2
  = updateExpense "t3" "b" (mkUpdates None (Some 45%float) None None)
      sampleStorage.
Proof.
  apply (updateExpense_twice "t3" "b"
           (mkUpdates None (Some 45%float) None None) sampleStorage).
  - split; [reflexivity|]. intros expenses. reflexivity.
  - exists (mkExpense "b" "2024-01-16" (Some 40%float) Bills "water" "t2" "t2").
    split; [vm_compute; right; left; reflexivity|reflexivity].
Defined.

(** *** Operations together *)

Lemma filter_other_ids_fresh (id0 : string) (expenses : list (Expense (option float))) :
  (forall expense, In expense expenses -> id expense <> id0) ->
  List.filter (fun exp => negb (String.eqb (id exp) id0)) expenses = expenses.
Proof.
  intros Hfresh. apply List.forallb_filter_id, List.forallb_forall.
  intros exp Hin. apply keeps_other_ids, Hfresh, Hin.
Qed.

(** X8: Adding a record under a fresh id and then deleting that id gives back the
    stored collection from before the two calls; the delete reports
    success. *)
Theorem add_then_delete_restores (uuid now : string) (expense : ExpenseInput)
    (ls : LocalStorage) :
  writable ls -> ~ stored uuid ls ->
  let added := (addExpense uuid now expense ls).2 in
  (deleteExpense uuid added).1 = true
  /\ getExpenses (deleteExpense uuid added).2 = getExpenses ls.
Proof.
  intros Hw Hfresh. cbv zeta.
  pose proof (getExpenses_addExpense uuid now expense ls Hw) as Hget.
  split.
  - apply deleteExpense_flag.
    exists (jsonExpense
              (mkExpense uuid (input_date expense) (Some (input_amount expense))
                 (input_category expense) (input_description expense) now now)).
    split; [|reflexivity].
    rewrite Hget. apply List.in_or_app. right. left. reflexivity.
  - rewrite (getExpenses_deleteExpense _ _ (writable_addExpense uuid now expense ls Hw)).
    rewrite Hget, List.filter_app. simpl.
    rewrite String.eqb_refl. simpl. rewrite List.app_nil_r.
    apply filter_other_ids_fresh. intros other Hin Hid.
    apply Hfresh. exists other. split; assumption.
Qed.

Lemma add_then_delete_restores_witness :
  let expense := mkInput "2024-02-01" 3.5%float Other "pen" in
  let added := (addExpense "c" "t3" expense sampleStorage).2 in
  (deleteExpense "c" added).1 = true
  /\ getExpenses (deleteExpense "c" added).2 = getExpenses sampleStorage.
Proof.
  apply (add_then_delete_restores "c" "t3"
           (mkInput "2024-02-01" 3.5%float Other "pen") sampleStorage).
  - split; [reflexivity|]. intros expenses. reflexivity.
  - intros (expense & Hin & Hid). vm_compute in Hin.
    destruct Hin as [<-|[<-|[]]]; discriminate Hid.
Defined.

Lemma map_id_insert (expenses : list (Expense (option float))) (index : nat)
    (old updated : Expense (option float)) :
  expenses !! index = Some old -> id updated = id old ->
  List.map id (<[index := updated]> expenses) = List.map id expenses.
Proof.
  revert index. induction expenses as [|x expenses IH]; intros index Hlook Hid.
  - reflexivity.
  - destruct index as [|index]; simpl in *.
    + injection Hlook as ->. rewrite Hid. reflexivity.
    + f_equal. exact (IH index Hlook Hid).
Qed.

Lemma NoDup_map_filter {A B} (f : A -> B) (p : A -> bool) (l : list A) :
  NoDup (List.map f l) -> NoDup (List.map f (List.filter p l)).
Proof.
  induction l as [|x l IH]; simpl; intros Hnd; [exact Hnd|].
  apply NoDup_cons in Hnd. destruct Hnd as [Hx Hnd].
  destruct (p x); simpl; [|exact (IH Hnd)].
  apply NoDup_cons. split; [|exact (IH Hnd)].
  intros Hin. apply Hx. apply list_elem_of_In in Hin. apply list_elem_of_In.
  apply List.in_map_iff in Hin. destruct Hin as (y & Hy & Hin).
  apply List.filter_In in Hin. apply List.in_map_iff. exists y. tauto.
Qed.

(** X9: Ids stay unique: when no two stored records share an id, the same holds
    after [addExpense] under an id that no stored record has, after
    [updateExpense] and after [deleteExpense]. *)
Theorem ids_stay_unique (uuid now id0 : string) (expense : ExpenseInput)
    (updates : ExpenseUpdates) (ls : LocalStorage) :
  writable ls -> uniqueIds (getExpenses ls) ->
  (~ stored uuid ls -> uniqueIds (getExpenses (addExpense uuid now expense ls).2))
  /\ uniqueIds (getExpenses (updateExpense now id0 updates ls).2)
  /\ uniqueIds (getExpenses (deleteExpense id0 ls).2).
Proof.
  intros Hw Huniq. unfold uniqueIds in *. split; [|split].
  - intros Hfresh.
    rewrite (getExpenses_addExpense uuid now expense ls Hw), List.map_app.
    simpl.
    apply NoDup_app. split; [exact Huniq|]. split.
    + intros x Hx Hx'. apply list_elem_of_In in Hx'. simpl in Hx'.
      destruct Hx' as [<-|[]]. apply list_elem_of_In in Hx.
      apply List.in_map_iff in Hx. destruct Hx as (other & Hid & Hin).
      apply Hfresh. exists other. split; assumption.
    + apply NoDup_singleton.
  - destruct (list_find (fun exp => id exp = id0) (getExpenses ls))
      as [[index old]|] eqn:Hfind.
    + rewrite (StorageFacts.updateExpense_found _ _ _ _ _ _ Hfind). simpl.
      rewrite (getExpenses_saved _ _ Hw).
      rewrite StorageFacts.map_jsonExpense_insert, StorageFacts.getExpenses_json.
      apply list_find_Some in Hfind. destruct Hfind as (Hlook & _ & _).
      rewrite (map_id_insert _ _ old); [exact Huniq|exact Hlook|reflexivity].
    + unfold updateExpense. rewrite Hfind. exact Huniq.
  - rewrite (getExpenses_deleteExpense id0 ls Hw).
    apply NoDup_map_filter, Huniq.
Qed.

Lemma ids_stay_unique_witness :
  let expense := mkInput "2024-02-01" 3.5%float Other "pen" in
  let updates := mkUpdates None (Some 45%float) None None in
  (~ stored "c" sampleStorage ->
     uniqueIds (getExpenses (addExpense "c" "t3" expense sampleStorage).2))
  /\ uniqueIds (getExpenses (updateExpense "t3" "b" updates sampleStorage).2)
  /\ uniqueIds (getExpenses (deleteExpense "b" sampleStorage).2).
Proof.
  apply (ids_stay_unique "c" "t3" "b"
           (mkInput "2024-02-01" 3.5%float Other "pen")
           (mkUpdates None (Some 45%float) None None) sampleStorage).
  - split; [reflexivity|]. intros expenses. reflexivity.
  - unfold uniqueIds. vm_compute List.map. apply NoDup_cons. split.
    + intros Hin. apply list_elem_of_In in Hin. simpl in Hin.
      destruct Hin as [Hin|[]]. discriminate Hin.
    + apply NoDup_singleton.
Defined.

End StorageOps.

(** ** The page's list and the stored collection *)

Module PageFacts.
Import Storage Page.

Lemma map_replace_unique (expenses : list (Expense (option float))) (index : nat)
    (old updated : Expense (option float)) :
  uniqueIds expenses -> expenses !! index = Some old -> id updated = id old ->
  List.map (fun exp => if String.eqb (id exp) (id updated) then updated else exp)
    expenses
  = <[index := updated]> expenses.
Proof.
  unfold uniqueIds. intros Huniq Hlook Hid. rewrite Hid. clear Hid.
  revert index Huniq Hlook.
  induction expenses as [|x expenses IH]; intros index Huniq Hlook.
  - discriminate Hlook.
  - simpl in Huniq. apply NoDup_cons in Huniq. destruct Huniq as [Hx Huniq].
    destruct index as [|index]; simpl in *.
    + injection Hlook as ->. rewrite String.eqb_refl. f_equal.
      transitivity (List.map (fun exp : Expense (option float) => exp) expenses);
        [|apply List.map_id].
      apply List.map_ext_in. intros exp Hin.
      destruct (String.eqb_spec (id exp) (id old)) as [He|_]; [|reflexivity].
      exfalso. apply Hx. apply list_elem_of_In. rewrite <- He.
      apply List.in_map, Hin.
    + destruct (String.eqb_spec (id x) (id old)) as [He|_].
      * exfalso. apply Hx. apply list_elem_of_In. rewrite He.
        apply List.in_map. apply list_elem_of_In.
        exact (list_elem_of_lookup_2 _ _ _ Hlook).
      * f_equal. exact (IH index Huniq Hlook).
Qed.

(** X10: Adding through the page with working storage: the list on screen ends
    with the new record, whose amount is the parsed text of the form, and
    the stored collection ends with that record as JSON keeps it.  The list
    on screen stays equal to the stored collection exactly when the parsed
    amount survives JSON, that is when it is a finite number other than the
    negative zero; for a text that parses to NaN the page shows NaN where
    the storage holds [null]. *)
Theorem handleAddExpense_in_sync (uuid now : string)
    (formData : ExpenseFormData) (st : PageState) :
  writable (storage st) -> inSync st ->
  let st' := handleAddExpense uuid now formData st in
  let newExpense :=
    mkExpense uuid (form_date formData)
      (Some (Currency.parseFloat (form_amount formData)))
      (form_category formData) (form_description formData) now now in
  expenses st' = expenses st ++ [newExpense]
  /\ getExpenses (storage st')
     = getExpenses (storage st) ++ [jsonExpense newExpense]
  /\ (inSync st'
      <-> survivesJson (Some (Currency.parseFloat (form_amount formData))))
  /\ isModalOpen st' = false.
Proof.
  intros Hw Hsync. cbv zeta. unfold inSync in *.
  pose proof (StorageOps.getExpenses_addExpense uuid now
                (mkInput (form_date formData)
                   (Currency.parseFloat (form_amount formData))
                   (form_category formData) (form_description formData))
                (storage st) Hw) as Hget.
  unfold handleAddExpense. unfold addExpense in *. cbn [fst snd] in Hget.
  cbv beta iota zeta. cbn [expenses storage isModalOpen].
  cbn [input_date input_amount input_category input_description] in *.
  rewrite Hget, Hsync.
  split; [reflexivity|]. split; [reflexivity|]. split; [|reflexivity].
  split.
  - intros Heq. apply List.app_inv_head in Heq. injection Heq as Heq.
    symmetry. exact Heq.
  - intros Hs. do 2 f_equal. symmetry.
    apply (StorageFacts.jsonExpense_survives
             (mkExpense uuid (form_date formData)
                (Some (Currency.parseFloat (form_amount formData)))
                (form_category formData) (form_description formData) now now)).
    exact Hs.
Qed.

Lemma handleAddExpense_in_sync_witness :
  let formData := mkForm "2024-02-01" "3.50" Other "pen" in
  let st' := handleAddExpense "c" "t3" formData samplePage in
  let newExpense :=
    mkExpense "c" "2024-02-01" (Some (Currency.parseFloat "3.50")) Other "pen"
      "t3" "t3" in
  expenses st' = expenses samplePage ++ [newExpense]
  /\ getExpenses (storage st')
     = getExpenses (storage samplePage) ++ [jsonExpense newExpense]
  /\ (inSync st' <-> survivesJson (Some (Currency.parseFloat "3.50")))
  /\ isModalOpen st' = false.
Proof.
  apply (handleAddExpense_in_sync "c" "t3"
           (mkForm "2024-02-01" "3.50" Other "pen") samplePage).
  - split; [reflexivity|]. intros expenses. reflexivity.
  - vm_compute. reflexivity.
Defined.

(** An empty amount text parses to NaN: after the add the page shows a
    record with the amount NaN, the storage holds it with [null]. *)
Lemma handleAddExpense_nan_differs :
  let st' :=
    handleAddExpense "c" "t3" (mkForm "2024-02-01" "" Other "pen") samplePage in
  List.map amount (expenses st')
    = [Some 12.5%float; Some 40%float; Some nan]
  /\ List.map amount (getExpenses (storage st'))
     = [Some 12.5%float; Some 40%float; None]
  /\ ~ inSync st'.
Proof.
  split; [vm_compute; reflexivity|]. split; [vm_compute; reflexivity|].
  unfold inSync. vm_compute. discriminate.
Qed.

(** X11: When the write to storage throws, the page still shows the new record:
    the list on screen grows by that record while the stored collection
    does not change, so the two differ until the page is reloaded. *)
Theorem handleAddExpense_write_fails (uuid now : string)
    (formData : ExpenseFormData) (st : PageState) :
  inSync st ->
  (forall expenses, setItemThrows (storage st) expenses = true) ->
  let st' := handleAddExpense uuid now formData st in
  storage st' = storage st
  /\ List.length (expenses st') = S (List.length (getExpenses (storage st')))
  /\ ~ inSync st'
  /\ expenses st'
     = getExpenses (storage st')
       ++ [mkExpense uuid (form_date formData)
             (Some (Currency.parseFloat (form_amount formData)))
             (form_category formData) (form_description formData) now now].
Proof.
  intros Hsync Hthrow. cbv zeta.
  assert (Hstorage : storage (handleAddExpense uuid now formData st) = storage st).
  { unfold handleAddExpense, addExpense, saveExpenses. simpl.
    rewrite Hthrow. destruct (hasWindow (storage st)); reflexivity. }
  assert (Hlen : List.length (expenses (handleAddExpense uuid now formData st))
                 = S (List.length (getExpenses (storage st)))).
  { unfold handleAddExpense, addExpense. simpl.
    rewrite List.length_app, Hsync. simpl. lia. }
  rewrite Hstorage. split; [reflexivity|]. split; [exact Hlen|].
  split.
  - unfold inSync. rewrite Hstorage. intros Heq. rewrite Heq in Hlen. lia.
  - unfold handleAddExpense, addExpense. simpl. rewrite Hsync. reflexivity.
Qed.

Lemma handleAddExpense_write_fails_witness :
  let st := mkPage [] false None true (mkStorage true None (fun _ => true)) in
  let st' := handleAddExpense "c" "t3" (mkForm "2024-02-01" "3.50" Other "pen") st in
  storage st' = storage st
  /\ List.length (expenses st') = S (List.length (getExpenses (storage st')))
  /\ ~ inSync st'
  /\ expenses st'
     = getExpenses (storage st')
       ++ [mkExpense "c" "2024-02-01" (Some (Currency.parseFloat "3.50")) Other
             "pen" "t3" "t3"].
Proof.
  apply (handleAddExpense_write_fails "c" "t3"
           (mkForm "2024-02-01" "3.50" Other "pen")
           (mkPage [] false None true (mkStorage true None (fun _ => true)))).
  - reflexivity.
  - intros expenses. reflexivity.
Defined.

(** X12: Editing through the page with working storage and no two records
    sharing an id: the page replaces every record with the edited id, the
    storage only the first, and with unique ids these are the same
    position; the page puts the edited record there and the storage holds
    it as JSON keeps it.  So the list on screen stays equal to the stored
    collection exactly when the parsed amount survives JSON (it is a finite
    number other than the negative zero) or no stored record is being
    edited.  The list keeps its length, and when an expense was being
    edited the modal is closed and nothing is being edited afterwards. *)
Theorem handleEditExpense_in_sync (now : string) (formData : ExpenseFormData)
    (st : PageState) :
  writable (storage st) -> inSync st -> uniqueIds (expenses st) ->
  let st' := handleEditExpense now formData st in
  (inSync st'
   <-> survivesJson (Some (Currency.parseFloat (form_amount formData)))
       \/ ~ (exists editing, editingExpense st = Some editing
                             /\ stored (id editing) (storage st)))
  /\ List.length (expenses st') = List.length (expenses st)
  /\ (editingExpense st <> None ->
      isModalOpen st' = false /\ editingExpense st' = None).
Proof.
  intros Hw Hsync Huniq. unfold inSync in *. unfold handleEditExpense.
  destruct (editingExpense st) as [editing|] eqn:Hediting.
  - set (updates := mkUpdates _ _ _ _).
    destruct (list_find (fun exp => id exp = id editing) (getExpenses (storage st)))
      as [[index old]|] eqn:Hfind.
    + rewrite (StorageFacts.updateExpense_found _ _ _ _ _ _ Hfind).
      cbv beta iota zeta. cbn [expenses storage isModalOpen editingExpense].
      rewrite (StorageOps.getExpenses_saved _ _ Hw).
      rewrite StorageFacts.map_jsonExpense_insert, StorageFacts.getExpenses_json.
      apply list_find_Some in Hfind. destruct Hfind as (Hlook & Hid & _).
      rewrite Hsync in *.
      rewrite (map_replace_unique _ index old); [|exact Huniq|exact Hlook|reflexivity].
      assert (Hlt : index < length (getExpenses (storage st)))
        by exact (lookup_lt_Some _ _ _ Hlook).
      split; [|split; [apply length_insert|intros _; split; reflexivity]].
      split.
      * intros Heq. left.
        assert (Hat : Some (applyUpdates old updates now)
                      = Some (jsonExpense (applyUpdates old updates now))).
        { rewrite <- (list_lookup_insert_eq (getExpenses (storage st)) index
                        (applyUpdates old updates now) Hlt).
          rewrite Heq. apply list_lookup_insert_eq, Hlt. }
        apply (inj Some) in Hat.
        apply (StorageFacts.jsonExpense_survives (applyUpdates old updates now)).
        symmetry. exact Hat.
      * intros [Hs|Hno].
        -- f_equal. symmetry.
           apply (StorageFacts.jsonExpense_survives (applyUpdates old updates now)).
           exact Hs.
        -- exfalso. apply Hno. exists editing. split; [reflexivity|].
           exists old. split; [|exact Hid].
           apply list_elem_of_In. exact (list_elem_of_lookup_2 _ _ _ Hlook).
    + unfold updateExpense. rewrite Hfind. simpl.
      split; [|split; [reflexivity|intros _; split; reflexivity]].
      split; [|intros _; exact Hsync].
      intros _. right. intros (editing' & Heq & expense & Hin & Hid).
      injection Heq as <-.
      apply list_find_None in Hfind. rewrite Forall_forall in Hfind.
      apply list_elem_of_In in Hin. exact (Hfind expense Hin Hid).
  - split; [|split; [reflexivity|intros Hne; contradiction]].
    split; [|intros _; exact Hsync].
    intros _. right. intros (editing & Heq & _). discriminate Heq.
Qed.

Lemma handleEditExpense_in_sync_witness :
  let st :=
    handleOpenEditModal
      (mkExpense "b" "2024-01-16" (Some 40%float) Bills "water" "t2" "t2")
      samplePage in
  let st' := handleEditExpense "t3" (mkForm "2024-01-16" "45" Bills "water") st in
  (inSync st'
   <-> survivesJson (Some (Currency.parseFloat "45"))
       \/ ~ (exists editing, editingExpense st = Some editing
                             /\ stored (id editing) (storage st)))
  /\ List.length (expenses st') = List.length (expenses st)
  /\ (editingExpense st <> None ->
      isModalOpen st' = false /\ editingExpense st' = None).
Proof.
  apply (handleEditExpense_in_sync "t3" (mkForm "2024-01-16" "45" Bills "water")
           (handleOpenEditModal
              (mkExpense "b" "2024-01-16" (Some 40%float) Bills "water" "t2" "t2")
              samplePage)).
  - split; [reflexivity|]. intros expenses. reflexivity.
  - vm_compute. reflexivity.
  - unfold uniqueIds. vm_compute List.map. apply NoDup_cons. split.
    + intros Hin. apply list_elem_of_In in Hin. simpl in Hin.
      destruct Hin as [Hin|[]]. discriminate Hin.
    + apply NoDup_singleton.
Defined.

(** X13: Deleting through the page keeps the list on screen equal to the stored
    collection when storage works; afterwards neither holds a record with
    the id. *)
Theorem handleDeleteExpense_in_sync (id0 : string) (st : PageState) :
  writable (storage st) -> inSync st ->
  let st' := handleDeleteExpense id0 st in
  inSync st'
  /\ (forall expense, In expense (expenses st') <->
        In expense (expenses st) /\ id expense <> id0).
Proof.
  intros Hw Hsync. unfold inSync in *. cbv zeta.
  pose proof (StorageOps.getExpenses_deleteExpense id0 (storage st) Hw) as Hget.
  assert (Hexp : expenses (handleDeleteExpense id0 st)
                 = List.filter (fun exp => negb (String.eqb (id exp) id0))
                     (expenses st)).
  { unfold handleDeleteExpense, deleteExpense. rewrite Hsync.
    destruct (Nat.eqb_spec
                (List.length (List.filter (fun exp => negb (String.eqb (id exp) id0))
                                (getExpenses (storage st))))
                (List.length (getExpenses (storage st)))) as [Hlen|Hlen]; simpl.
    - symmetry. apply StorageOps.filter_length_eq, Hlen.
    - reflexivity. }
  assert (Hst : storage (handleDeleteExpense id0 st)
                = (deleteExpense id0 (storage st)).2).
  { unfold handleDeleteExpense. destruct (deleteExpense id0 (storage st)).
    reflexivity. }
  split.
  - rewrite Hexp, Hst, Hget, Hsync. reflexivity.
  - intros expense. rewrite Hexp, List.filter_In, StorageOps.keeps_other_ids.
    reflexivity.
Qed.

Lemma handleDeleteExpense_in_sync_witness :
  let st' := handleDeleteExpense "a" samplePage in
  inSync st'
  /\ (forall expense, In expense (expenses st') <->
        In expense (expenses samplePage) /\ id expense <> "a").
Proof.
  apply (handleDeleteExpense_in_sync "a" samplePage).
  - split; [reflexivity|]. intros expenses. reflexivity.
  - vm_compute. reflexivity.
Defined.

End PageFacts.

(** ** Aggregation: buckets, the monthly total and a single expense *)

Module CalculationsMore.

Lemma bucket_setBucket_same {num} (b : CategoryBreakdown num)
    (c : ExpenseCategory) (v : num) :
  bucket (setBucket b c v) c = v.
Proof. destruct c; reflexivity. Qed.

Lemma bucket_setBucket_other {num} (b : CategoryBreakdown num)
    (c c' : ExpenseCategory) (v : num) :
  c <> c' -> bucket (setBucket b c v) c' = bucket b c'.
Proof. intros Hne. destruct c, c'; try reflexivity; contradiction. Qed.

Lemma bucket_fold {num} `{Number num} (expenses : list (Expense num))
    (b : CategoryBreakdown num) (c : ExpenseCategory) :
  bucket (fold_left addToBucket expenses b) c
  = fold_left (fun sum expense => add sum (amount expense))
      (List.filter (fun expense => bool_decide (category expense = c)) expenses)
      (bucket b c).
Proof.
  revert b. induction expenses as [|expense expenses IH]; intros b; simpl.
  - reflexivity.
  - rewrite IH. unfold addToBucket.
    destruct (bool_decide_reflect (category expense = c)) as [He|Hne]; simpl.
    + rewrite He, bucket_setBucket_same. reflexivity.
    + rewrite bucket_setBucket_other by exact Hne. reflexivity.
Qed.

(** X14: Each bucket is the sum, taken in list order from 0, of the amounts of
    the expenses of its category; this holds for binary64 amounts bit for
    bit.  A category without expenses has the bucket 0. *)
Theorem bucket_is_category_sum {num} `{Number num}
    (isWithinCurrentMonth : string -> bool) (expenses : list (Expense num))
    (c : ExpenseCategory) :
  let summary := calculateSpendingSummary isWithinCurrentMonth expenses in
  bucket (categoryBreakdown summary) c
    = sumAmounts
        (List.filter (fun expense => bool_decide (category expense = c)) expenses)
  /\ ((forall expense, In expense expenses -> category expense <> c) ->
      bucket (categoryBreakdown summary) c = zero).
Proof.
  simpl. unfold breakdownOf, sumAmounts. rewrite bucket_fold.
  assert (Hzero : bucket (emptyBreakdown (num := num)) c = zero)
    by (destruct c; reflexivity).
  rewrite Hzero. split; [reflexivity|].
  intros Hnone.
  replace (List.filter (fun expense => bool_decide (category expense = c)) expenses)
    with ([] : list (Expense num)); [reflexivity|].
  symmetry. induction expenses as [|expense expenses IH]; [reflexivity|].
  simpl. destruct (bool_decide_reflect (category expense = c)) as [He|_].
  - destruct (Hnone expense (or_introl eq_refl) He).
  - apply IH. intros e He. apply Hnone. right. exact He.
Qed.

(** X15: The monthly total is the total of the expenses dated in the current
    month: it equals [totalSpending] when every expense is, and 0 when none
    is. *)
Theorem monthlySpending_of_month {num} `{Number num}
    (isWithinCurrentMonth : string -> bool) (expenses : list (Expense num)) :
  let summary := calculateSpendingSummary isWithinCurrentMonth expenses in
  monthlySpending summary
    = totalSpending
        (calculateSpendingSummary isWithinCurrentMonth
           (List.filter (fun expense => isWithinCurrentMonth (date expense))
              expenses))
  /\ ((forall expense, In expense expenses ->
         isWithinCurrentMonth (date expense) = true) ->
      monthlySpending summary = totalSpending summary)
  /\ ((forall expense, In expense expenses ->
         isWithinCurrentMonth (date expense) = false) ->
      monthlySpending summary = zero).
Proof.
  simpl. split; [reflexivity|]. split.
  - intros Hall. f_equal.
    apply List.forallb_filter_id, List.forallb_forall. exact Hall.
  - intros Hnone.
    replace (List.filter (fun expense => isWithinCurrentMonth (date expense))
               expenses) with ([] : list (Expense num)); [reflexivity|].
    symmetry. induction expenses as [|expense expenses IH]; [reflexivity|].
    simpl. rewrite (Hnone expense (or_introl eq_refl)).
    apply IH. intros e He. apply Hnone. right. exact He.
Qed.

(** Adding to 0 a number that exceeds 0 gives the number itself. *)
Lemma add_zero_positive (a : float) :
  PrimFloat.ltb 0 a = true -> PrimFloat.add 0 a = a.
Proof.
  intros Hpos. apply Prim2SF_inj. rewrite FloatAxioms.add_spec.
  rewrite FloatAxioms.ltb_spec in Hpos.
  replace (Prim2SF 0) with (S754_zero false) in * by (vm_compute; reflexivity).
  destruct (Prim2SF a) as [s|s| |s m e]; try discriminate Hpos; reflexivity.
Qed.

(** X16: A single expense with an amount above 0: the total and the bucket of its
    category are the amount, the other buckets are 0, the top category is
    its category with the amount, and the monthly total is the amount or 0
    according to its date. *)
Theorem single_expense_summary (isWithinCurrentMonth : string -> bool)
    (expense : Expense float) :
  PrimFloat.ltb 0 (amount expense) = true ->
  let summary := calculateSpendingSummary isWithinCurrentMonth [expense] in
  totalSpending summary = amount expense
  /\ monthlySpending summary
     = (if isWithinCurrentMonth (date expense) then amount expense else 0%float)
  /\ (forall c, bucket (categoryBreakdown summary) c
                = if bool_decide (c = category expense) then amount expense
                  else 0%float)
  /\ topCategory summary = Some (category expense, amount expense).
Proof.
  intros Hpos.
  pose proof (add_zero_positive _ Hpos) as Hadd.
  assert (Hneg : PrimFloat.ltb (amount expense) 0 = false).
  { apply JsNumber.leb_not_ltb.
    apply JsNumber.not_ltb_leb;
      [exact (JsNumber.ltb_not_nan_r _ _ Hpos)|reflexivity|].
    destruct (PrimFloat.ltb (amount expense) 0) eqn:Hlt; [|reflexivity].
    pose proof (JsNumber.ltb_trans _ _ _ Hpos Hlt) as Hbad.
    rewrite JsNumber.ltb_irrefl in Hbad. discriminate Hbad. }
  pose proof (JsNumber.ltb_irrefl (amount expense)) as Hirr.
  assert (H00 : PrimFloat.ltb 0 0 = false) by apply JsNumber.ltb_irrefl.
  cbv zeta. unfold calculateSpendingSummary, sumAmounts, breakdownOf,
    findTopCategory, addToBucket, scanStep, categoryKeys.
  cbn [totalSpending monthlySpending categoryBreakdown topCategory fold_left
       List.filter].
  split; [exact Hadd|]. split.
  { destruct (isWithinCurrentMonth (date expense)); [exact Hadd|reflexivity]. }
  destruct (category expense); simpl; rewrite Hadd;
    repeat (progress (rewrite ?Hpos, ?Hneg, ?Hirr, ?H00; simpl));
    (split; [intros c; destruct c; reflexivity|reflexivity]).
Qed.

Lemma single_expense_summary_witness :
  let expense := mkExpense "1" "2024-01-15" 42%float Entertainment "film" "t1" "t1" in
  let summary := calculateSpendingSummary (fun _ => true) [expense] in
  totalSpending summary = amount expense
  /\ monthlySpending summary = (if true then amount expense else 0%float)
  /\ (forall c, bucket (categoryBreakdown summary) c
                = if bool_decide (c = category expense) then amount expense
                  else 0%float)
  /\ topCategory summary = Some (category expense, amount expense).
Proof.
  apply (single_expense_summary (fun _ => true)
           (mkExpense "1" "2024-01-15" 42%float Entertainment "film" "t1" "t1")).
  reflexivity.
Defined.

End CalculationsMore.

(** ** Buckets against the total, on binary64 amounts *)

Module CalculationsExact.
Local Open Scope string_scope.

(** *** Finite binary64 values as integers *)

Lemma size_digits (p : positive) : digits2_pos p = Pos.size p.
Proof. induction p; simpl; congruence. Qed.

Lemma digits_log2 (p : positive) : Zpos (digits2_pos p) = (Z.log2 (Zpos p) + 1)%Z.
Proof.
  rewrite size_digits. destruct p; simpl; try lia.
Qed.

Lemma valid_finite (x : float) (s : bool) (m : positive) (e : Z) :
  Prim2SF x = S754_finite s m e ->
  e = Z.max (Zpos (digits2_pos m) + e - 53) (-1074).
Proof.
  intros Hx. pose proof (Prim2SF_valid x) as Hv. rewrite Hx in Hv.
  simpl in Hv. unfold bounded, canonical_mantissa in Hv.
  apply andb_prop in Hv. destruct Hv as [Hc _].
  apply Z.eqb_eq in Hc. unfold fexp, SpecFloat.emin in Hc. 
  change prec with 53%Z in Hc. change emax with 1024%Z in Hc.
  lia.
Qed.

Lemma finite_inj (m m' : positive) (e e' : Z) :
  e = Z.max (Zpos (digits2_pos m) + e - 53) (-1074) ->
  e' = Z.max (Zpos (digits2_pos m') + e' - 53) (-1074) ->
  (Zpos m * 2 ^ (e + 1074) = Zpos m' * 2 ^ (e' + 1074))%Z ->
  m = m' /\ e = e'.
Proof.
  intros He He' Heq. rewrite !digits_log2 in *.
  assert (Hlog : (Z.log2 (Zpos m) + e = Z.log2 (Zpos m') + e')%Z).
  { assert (H1 : Z.log2 (Zpos m * 2 ^ (e + 1074)) = (e + 1074 + Z.log2 (Zpos m))%Z)
      by (apply Z.log2_mul_pow2; lia).
    assert (H2 : Z.log2 (Zpos m' * 2 ^ (e' + 1074)) = (e' + 1074 + Z.log2 (Zpos m'))%Z)
      by (apply Z.log2_mul_pow2; lia).
    rewrite Heq in H1. lia. }
  assert (Hee : e = e') by lia. subst e'. split; [|reflexivity].
  assert (Hp : (0 < 2 ^ (e + 1074))%Z) by (apply Z.pow_pos_nonneg; lia).
  apply Z.mul_cancel_r in Heq; [|lia]. congruence.
Qed.

(** Two finite values with the same non-zero number of units are the same
    number. *)
Lemma units_inj (x y : float) (n : Z) :
  units x = Some n -> units y = Some n -> n <> 0%Z -> x = y.
Proof.
  unfold units. intros Hx Hy Hn. apply Prim2SF_inj.
  destruct (Prim2SF x) as [sx|sx| |sx mx ex] eqn:Ex; try discriminate Hx;
    destruct (Prim2SF y) as [sy|sy| |sy my ey] eqn:Ey; try discriminate Hy;
    injection Hx as Hx; injection Hy as Hy; try congruence.
  pose proof (valid_finite _ _ _ _ Ex) as Vx.
  pose proof (valid_finite _ _ _ _ Ey) as Vy.
  assert (Px : (0 < Zpos mx * 2 ^ (ex + 1074))%Z)
    by (apply Z.mul_pos_pos; [lia|apply Z.pow_pos_nonneg; lia]).
  assert (Py : (0 < Zpos my * 2 ^ (ey + 1074))%Z)
    by (apply Z.mul_pos_pos; [lia|apply Z.pow_pos_nonneg; lia]).
  assert (Hs : sx = sy).
  { destruct sx, sy; simpl in *; try reflexivity; lia. }
  subst sy.
  assert (Hv : (Zpos mx * 2 ^ (ex + 1074) = Zpos my * 2 ^ (ey + 1074))%Z).
  { destruct sx; simpl in *; lia. }
  destruct (finite_inj _ _ _ _ Vx Vy Hv) as [-> ->]. reflexivity.
Qed.

Lemma iter_xO_value (m d : positive) :
  Zpos (Pos.iter xO m d) = (Zpos m * 2 ^ Zpos d)%Z.
Proof.
  revert m. induction d using Pos.peano_ind; intros m.
  - simpl. lia.
  - rewrite Pos.iter_succ, Pos2Z.inj_xO, IHd, Pos2Z.inj_succ, Z.pow_succ_r by lia.
    lia.
Qed.

Lemma shl_align_value (m : positive) (e e' : Z) :
  (e' <= e)%Z -> Zpos (shl_align m e e').1 = (Zpos m * 2 ^ (e - e'))%Z.
Proof.
  intros Hle. unfold shl_align.
  destruct (e' - e)%Z as [|d|d] eqn:Hd; simpl.
  - replace (e - e')%Z with 0%Z by lia. lia.
  - lia.
  - rewrite iter_xO_value. f_equal. f_equal. lia.
Qed.

(** An exact addition gives the negative zero only from the negative
    zero. *)
Lemma exactAdd_not_neg_zero (x a : float) :
  Prim2SF x <> S754_zero true -> exactAdd x a = true ->
  Prim2SF (x + a) <> S754_zero true.
Proof.
  unfold exactAdd, units. intros Hx Hex. rewrite FloatAxioms.add_spec in *.
  destruct (Prim2SF x) as [sx|sx| |sx mx ex] eqn:Ex; try discriminate Hex;
    destruct (Prim2SF a) as [sy|sy| |sy my ey] eqn:Ea; try discriminate Hex.
  - destruct sx; [contradiction|]. destruct sy; simpl; discriminate.
  - simpl. discriminate.
  - simpl. discriminate.
  - pose proof (valid_finite _ _ _ _ Ex) as Vx.
    pose proof (valid_finite _ _ _ _ Ea) as Va.
    unfold SF64add, SFadd in *.
    set (ez := Z.min ex ey) in *.
    set (S := (cond_Zopp sx (Zpos (shl_align mx ex ez).1)
               + cond_Zopp sy (Zpos (shl_align my ey ez).1))%Z) in *.
    intros Hres. rewrite Hres in Hex. apply Z.eqb_eq in Hex.
    assert (HS : (cond_Zopp sx (Zpos mx * 2 ^ (ex + 1074))
                  + cond_Zopp sy (Zpos my * 2 ^ (ey + 1074))
                  = S * 2 ^ (ez + 1074))%Z).
    { assert (Hez : (ez <= ex /\ ez <= ey /\ -1074 <= ez)%Z) by (subst ez; lia).
      assert (Hpx : (2 ^ (ex + 1074) = 2 ^ (ex - ez) * 2 ^ (ez + 1074))%Z)
        by (rewrite <- Z.pow_add_r by lia; f_equal; lia).
      assert (Hpy : (2 ^ (ey + 1074) = 2 ^ (ey - ez) * 2 ^ (ez + 1074))%Z)
        by (rewrite <- Z.pow_add_r by lia; f_equal; lia).
      subst S. rewrite !shl_align_value by lia. rewrite Hpx, Hpy.
      destruct sx, sy; simpl; lia. }
    assert (Hp : (0 < 2 ^ (ez + 1074))%Z) by (apply Z.pow_pos_nonneg; subst ez; lia).
    rewrite HS in Hex.
    assert (HS0 : S = 0%Z) by nia.
    rewrite HS0 in Hres. simpl in Hres. discriminate Hres.
Qed.

(** *** Exact sums *)

(** A sum without rounding is the sum of the units. *)
Lemma exactSum_units (l : list float) :
  forall acc u,
    units acc = Some u -> Prim2SF acc <> S754_zero true ->
    exactSum acc l = true ->
    units (fold_left PrimFloat.add l acc)
      = Some (u + fold_right Z.add 0 (List.map unitsOf l))%Z
    /\ Prim2SF (fold_left PrimFloat.add l acc) <> S754_zero true.
Proof.
  induction l as [|a l IH]; intros acc u Hu Hz Hex; simpl in *.
  - split; [rewrite Hu; f_equal; lia|exact Hz].
  - apply andb_prop in Hex. destruct Hex as [Hadd Hrest].
    pose proof (exactAdd_not_neg_zero _ _ Hz Hadd) as Hz'.
    unfold exactAdd in Hadd. rewrite Hu in Hadd.
    destruct (units a) as [b|] eqn:Ha; [|discriminate Hadd].
    destruct (units (acc + a)) as [c|] eqn:Hc; [|discriminate Hadd].
    apply Z.eqb_eq in Hadd. subst c.
    destruct (IH _ _ Hc Hz' Hrest) as [Hsum Hnz].
    split; [|exact Hnz]. rewrite Hsum. unfold unitsOf at 2. rewrite Ha. simpl.
    f_equal. lia.
Qed.

Lemma fold_left_amounts (expenses : list (Expense float)) (acc : float) :
  fold_left (fun sum expense => add sum (amount expense)) expenses acc
  = fold_left PrimFloat.add (List.map amount expenses) acc.
Proof.
  revert acc. induction expenses as [|e expenses IH]; intros acc; simpl;
    [reflexivity|apply IH].
Qed.

Lemma fold_left_buckets (b : CategoryBreakdown float) (l : list ExpenseCategory)
    (acc : float) :
  fold_left (fun s c => add s (bucket b c)) l acc
  = fold_left PrimFloat.add (List.map (bucket b) l) acc.
Proof.
  revert acc. induction l as [|c l IH]; intros acc; simpl;
    [reflexivity|apply IH].
Qed.

(** Over the integers the per-category sums add up to the sum of all. *)
Lemma units_partition (f : Expense float -> Z) (expenses : list (Expense float)) :
  fold_right Z.add 0%Z (List.map f expenses)
  = fold_right Z.add 0%Z
      (List.map (fun c =>
                   fold_right Z.add 0%Z
                     (List.map f
                        (List.filter
                           (fun expense => bool_decide (category expense = c))
                           expenses)))
         categoryKeys).
Proof.
  induction expenses as [|e expenses IH]; [reflexivity|].
  simpl in *. rewrite IH.
  destruct (category e); simpl; lia.
Qed.

Lemma zero_units : units 0 = Some 0%Z /\ Prim2SF 0 <> S754_zero true.
Proof. split; [vm_compute; reflexivity|vm_compute; discriminate]. Qed.

(** C9, as amended: for binary64 amounts, when none of the additions that
    produce [totalSpending], the six buckets and the sum of the six bucket
    values rounds, the six bucket values add up to exactly [totalSpending]
    (the same number, bit for bit): every expense is added to exactly one
    bucket. *)
Theorem buckets_sum_to_total_without_rounding
    (isWithinCurrentMonth : string -> bool) (expenses : list (Expense float)) :
  noRounding expenses = true ->
  let summary := calculateSpendingSummary isWithinCurrentMonth expenses in
  sumBuckets (categoryBreakdown summary) = totalSpending summary.
Proof.
  unfold noRounding. intros H. apply andb_prop in H. destruct H as [H Hb].
  apply andb_prop in H. destruct H as [Ht Hc].
  rewrite forallb_forall in Hc.
  destruct zero_units as [Hu0 Hz0].
  cbv zeta. cbn [categoryBreakdown totalSpending calculateSpendingSummary].
  unfold sumAmounts, sumBuckets.
  change (@zero float jsNumber) with 0%float.
  rewrite fold_left_amounts, fold_left_buckets.
  destruct (exactSum_units _ _ _ Hu0 Hz0 Ht) as [Htotal Htz].
  destruct (exactSum_units _ _ _ Hu0 Hz0 Hb) as [Hsum Hsz].
  assert (Hbucket : forall c, unitsOf (bucket (breakdownOf expenses) c)
                    = fold_right Z.add 0%Z
                        (List.map (fun e => unitsOf (amount e))
                           (List.filter
                              (fun expense => bool_decide (category expense = c))
                              expenses))).
  { intros c. unfold breakdownOf. rewrite CalculationsMore.bucket_fold.
    assert (Hzb : bucket (emptyBreakdown (num := float)) c = 0%float)
      by (destruct c; reflexivity).
    rewrite Hzb, fold_left_amounts.
    assert (Hin : In c categoryKeys) by (destruct c; simpl; tauto).
    destruct (exactSum_units _ _ _ Hu0 Hz0 (Hc c Hin)) as [Hbc _].
    unfold unitsOf at 1. rewrite Hbc. simpl. rewrite List.map_map. lia. }
  rewrite List.map_map in Hsum.
  rewrite (List.map_ext _ _ Hbucket) in Hsum.
  rewrite <- (units_partition (fun e => unitsOf (amount e))) in Hsum.
  rewrite <- (List.map_map amount unitsOf) in Hsum.
  set (total := fold_left PrimFloat.add (List.map amount expenses) 0%float) in *.
  set (sum := fold_left PrimFloat.add
                (List.map (bucket (breakdownOf expenses)) categoryKeys) 0%float) in *.
  set (n := (0 + fold_right Z.add 0 (List.map unitsOf (List.map amount expenses)))%Z) in *.
  destruct (Z.eq_dec n 0%Z) as [Hn|Hn].
  - apply Prim2SF_inj. rewrite Hn in *. unfold units in Htotal, Hsum.
    destruct (Prim2SF total) as [[]|?| |st mt et] eqn:Et; try discriminate Htotal;
      [contradiction| |].
    + destruct (Prim2SF sum) as [[]|?| |ss ms es] eqn:Es; try discriminate Hsum;
        [contradiction|reflexivity|].
      pose proof (valid_finite _ _ _ _ Es).
      assert ((0 < Zpos ms * 2 ^ (es + 1074))%Z)
        by (apply Z.mul_pos_pos; [lia|apply Z.pow_pos_nonneg; lia]).
      injection Hsum as Hsum. destruct ss; simpl in Hsum; lia.
    + pose proof (valid_finite _ _ _ _ Et).
      assert ((0 < Zpos mt * 2 ^ (et + 1074))%Z)
        by (apply Z.mul_pos_pos; [lia|apply Z.pow_pos_nonneg; lia]).
      injection Htotal as Htotal. destruct st; simpl in Htotal; lia.
  - exact (units_inj _ _ _ Hsum Htotal Hn).
Qed.

(** In the list with 1.1 and 3.3 in Food and 2.2 in Bills, for which the
    two sums differ, an addition rounds. *)
Lemma rounding_in_inexact_amounts :
  noRounding
    [mkExpense "1" "2024-01-15" 1.1%float Food "lunch" "t1" "t1";
     mkExpense "2" "2024-01-16" 2.2%float Bills "water" "t2" "t2";
     mkExpense "3" "2024-01-17" 3.3%float Food "dinner" "t3" "t3"]
  = false.
Proof. vm_compute. reflexivity. Qed.

Lemma buckets_sum_to_total_without_rounding_witness :
  noRounding exactAmounts = true
  /\ let summary := calculateSpendingSummary (fun _ => true) exactAmounts in
     sumBuckets (categoryBreakdown summary) = totalSpending summary.
Proof.
  split; [vm_compute; reflexivity|].
  apply (buckets_sum_to_total_without_rounding (fun _ => true) exactAmounts).
  vm_compute. reflexivity.
Defined.

End CalculationsExact.

(** ** Currency parsing: what is ignored and where the number ends *)

Module CurrencyMore.
Import Currency.
Local Open Scope string_scope.

Lemma stripNonNumeric_app (s t : string) :
  stripNonNumeric (s ++ t) = stripNonNumeric s ++ stripNonNumeric t.
Proof.
  induction s as [|c s IH]; [reflexivity|].
  rewrite CsvExportFacts.append_cons. simpl.
  destruct (isDigitOrDot c); rewrite IH; reflexivity.
Qed.

Lemma stripNonNumeric_numeric (s : string) :
  allOf isDigitOrDot s = true -> stripNonNumeric s = s.
Proof.
  induction s as [|c s IH]; simpl; [reflexivity|].
  intros H. apply andb_prop in H. destruct H as [Hc Hs].
  rewrite Hc, (IH Hs). reflexivity.
Qed.

(** X17: Characters other than digits and dots do not count: the result is that
    of the cleaned text, and deleting one such character anywhere in the
    input (a currency symbol, a thousands separator, a minus sign, a letter)
    does not change it. *)
Theorem parseCurrency_ignores_other_characters (value before after : string)
    (c : ascii) :
  parseCurrency (stripNonNumeric value) = parseCurrency value
  /\ (isDigitOrDot c = false ->
      parseCurrency (before ++ String c after) = parseCurrency (before ++ after)).
Proof.
  split.
  - unfold parseCurrency.
    rewrite (stripNonNumeric_numeric _ (CurrencyFacts.stripNonNumeric_allOf value)).
    reflexivity.
  - intros Hc. unfold parseCurrency. rewrite !stripNonNumeric_app. simpl.
    rewrite Hc. reflexivity.
Qed.

Lemma isDigit_isDigitOrDot (c : ascii) :
  isDigit c = true -> isDigitOrDot c = true.
Proof. unfold isDigitOrDot. intros ->. reflexivity. Qed.

Lemma allOf_digits_numeric (s : string) :
  allOf isDigit s = true -> allOf isDigitOrDot s = true.
Proof.
  induction s as [|c s IH]; simpl; [reflexivity|].
  intros H. apply andb_prop in H. destruct H as [Hc Hs].
  rewrite (isDigit_isDigitOrDot c Hc), (IH Hs). reflexivity.
Qed.

(** The digits at the front are all the digits when a dot or nothing
    follows. *)
Lemma spanDigits_stop (ds rest : string) :
  allOf isDigit ds = true ->
  (rest = "" \/ exists rest', rest = String "." rest') ->
  spanDigits (ds ++ rest) = (ds, rest).
Proof.
  intros Hds Hrest. induction ds as [|c ds IH].
  - destruct Hrest as [->|[rest' ->]]; reflexivity.
  - simpl in Hds. apply andb_prop in Hds. destruct Hds as [Hc Hds].
    rewrite CsvExportFacts.append_cons. simpl. rewrite Hc, (IH Hds).
    reflexivity.
Qed.

Lemma strDecimalLiteral_unsigned (s : string) :
  allOf isDigitOrDot s = true ->
  strDecimalLiteral s
  = match s with
    | EmptyString => None
    | _ => strUnsignedDecimalLiteral false s
    end.
Proof.
  destruct s as [|c rest]; [reflexivity|].
  intros H. simpl in H. apply andb_prop in H. destruct H as [Hc _].
  unfold strDecimalLiteral.
  destruct c as [[] [] [] [] [] [] [] []]; try discriminate Hc; reflexivity.
Qed.

Lemma prefix_Infinity_numeric (s : string) :
  allOf isDigitOrDot s = true -> String.prefix "Infinity" s = false.
Proof.
  destruct s as [|c rest]; [reflexivity|].
  intros H. simpl in H. apply andb_prop in H. destruct H as [Hc _].
  destruct c as [[] [] [] [] [] [] [] []]; try discriminate Hc; reflexivity.
Qed.

(** The literal read from [intDigits.fracDigits] followed by [rest], when
    [rest] is empty or starts with a dot. *)
Lemma literal_two_parts (intDigits fracDigits rest : string) :
  allOf isDigit intDigits = true -> allOf isDigit fracDigits = true ->
  (rest = "" \/ exists rest', rest = String "." rest') ->
  allOf isDigitOrDot rest = true ->
  strDecimalLiteral (intDigits ++ String "." (fracDigits ++ rest))
  = match intDigits, fracDigits with
    | EmptyString, EmptyString => None
    | _, _ =>
        Some (LitDecimal false (digitsValue 0 (intDigits ++ fracDigits))
                (0 - Z.of_nat (String.length fracDigits)))
    end.
Proof.
  intros Hi Hf Hrest Hnum.
  assert (Hall : allOf isDigitOrDot (intDigits ++ String "." (fracDigits ++ rest))
                 = true).
  { apply CurrencyFacts.allOf_app; [apply allOf_digits_numeric, Hi|].
    simpl. apply CurrencyFacts.allOf_app; [apply allOf_digits_numeric, Hf|exact Hnum]. }
  rewrite (strDecimalLiteral_unsigned _ Hall).
  assert (Hun : strUnsignedDecimalLiteral false
                  (intDigits ++ String "." (fracDigits ++ rest))
                = match intDigits, fracDigits with
                  | EmptyString, EmptyString => None
                  | _, _ =>
                      Some (LitDecimal false (digitsValue 0 (intDigits ++ fracDigits))
                              (0 - Z.of_nat (String.length fracDigits)))
                  end).
  { unfold strUnsignedDecimalLiteral.
    rewrite (prefix_Infinity_numeric _ Hall).
    rewrite (spanDigits_stop intDigits _ Hi) by (right; eauto).
    simpl. rewrite (spanDigits_stop fracDigits rest Hf Hrest).
    assert (Hexp : exponentPart rest = 0%Z).
    { destruct Hrest as [->|[rest' ->]]; reflexivity. }
    rewrite Hexp. reflexivity. }
  rewrite Hun.
  destruct intDigits; [|reflexivity].
  destruct fracDigits; reflexivity.
Qed.

(** X18: A second decimal point ends the number: for digit strings [intDigits]
    and [fracDigits], whatever follows the second dot is ignored. *)
Theorem parseCurrency_second_dot (intDigits fracDigits rest : string) :
  allOf isDigit intDigits = true -> allOf isDigit fracDigits = true ->
  parseCurrency (intDigits ++ String "." (fracDigits ++ String "." rest))
  = parseCurrency (intDigits ++ String "." fracDigits).
Proof.
  intros Hi Hf.
  rewrite !CurrencyFacts.parseCurrency_literal.
  rewrite !stripNonNumeric_app. simpl stripNonNumeric.
  rewrite !stripNonNumeric_app. simpl stripNonNumeric.
  rewrite !(stripNonNumeric_numeric intDigits (allOf_digits_numeric _ Hi)).
  rewrite !(stripNonNumeric_numeric fracDigits (allOf_digits_numeric _ Hf)).
  rewrite (literal_two_parts intDigits fracDigits
             (String "." (stripNonNumeric rest)) Hi Hf).
  - pose proof (literal_two_parts intDigits fracDigits "" Hi Hf
                  (or_introl eq_refl) eq_refl) as Hshort.
    rewrite CsvExportFacts.append_nil_r in Hshort. rewrite Hshort.
    reflexivity.
  - right. eauto.
  - simpl. apply CurrencyFacts.stripNonNumeric_allOf.
Qed.

Lemma parseCurrency_second_dot_witness :
  parseCurrency ("12" ++ String "." ("34" ++ String "." "56"))
  = parseCurrency ("12" ++ String "." "34").
Proof.
  apply (parseCurrency_second_dot "12" "34" "56"); reflexivity.
Defined.

End CurrencyMore.

(** ** CSV export: when nothing is written, and reading the text back *)

Module CsvExportMore.
Import CsvExport.
Local Open Scope string_scope.

Lemma mapM_None_iff {A B} (f : A -> option B) (l : list A) :
  mapM f l = None <-> exists x, In x l /\ f x = None.
Proof.
  induction l as [|x l IH].
  - split; [discriminate|]. intros (y & [] & _).
  - change (mapM f (x :: l)) with (y ← f x; k ← mapM f l; mret (y :: k)).
    destruct (f x) as [y|] eqn:Hx; simpl.
    + destruct (mapM f l) as [k|] eqn:Hl; simpl.
      * split; [discriminate|]. intros (z & [<-|Hz] & Hnone).
        -- rewrite Hx in Hnone. discriminate Hnone.
        -- destruct IH as [_ IH]. discriminate IH. eauto.
      * split; [|reflexivity]. intros _.
        destruct IH as [IH _]. destruct (IH eq_refl) as (z & Hz & Hnone).
        exists z. split; [right; exact Hz|exact Hnone].
    + split; [|reflexivity]. intros _. exists x. split; [left; reflexivity|exact Hx].
Qed.

(** X19: The one-click export writes nothing exactly when the list is empty or
    the date of some expense cannot be formatted: one such date aborts the
    whole export. *)
Theorem exportToCSV_nothing_iff (toFixed2 : float -> string)
    (formatDate : string -> option string) (expenses : list (Expense float)) :
  exportToCSV toFixed2 formatDate expenses = None
  <-> expenses = []
      \/ exists expense, In expense expenses /\ formatDate (date expense) = None.
Proof.
  destruct expenses as [|expense expenses].
  - split; [left; reflexivity|reflexivity].
  - rewrite CsvExportFacts.exportToCSV_nonempty.
    assert (Hrow : forall e, exportRow toFixed2 formatDate e = None
                             <-> formatDate (date e) = None).
    { intros e. unfold exportRow. destruct (formatDate (date e)).
      - split; discriminate.
      - split; reflexivity. }
    split.
    + destruct (mapM (exportRow toFixed2 formatDate) (expense :: expenses))
        as [rows|] eqn:Hrows; [discriminate|]. intros _. right.
      apply mapM_None_iff in Hrows. destruct Hrows as (e & He & Hnone).
      exists e. split; [exact He|apply Hrow, Hnone].
    + intros [Hnil|(e & He & Hnone)]; [discriminate Hnil|].
      assert (Hrows : mapM (exportRow toFixed2 formatDate) (expense :: expenses)
                      = None).
      { apply mapM_None_iff. exists e. split; [exact He|apply Hrow, Hnone]. }
      rewrite Hrows. reflexivity.
Qed.

(** *** The reader on the exported text *)

Lemma plainField_cons (c : ascii) (s : string) :
  plainField (String c s) = true ->
  Ascii.eqb c "," = false /\ Ascii.eqb c dquote = false
  /\ Ascii.eqb c "010" = false /\ Ascii.eqb c "013" = false
  /\ plainField s = true.
Proof.
  simpl. unfold isSpecial. intros H. apply andb_prop in H.
  destruct H as [Hc Hs].
  destruct (Ascii.eqb c ","), (Ascii.eqb c dquote), (Ascii.eqb c "010"),
    (Ascii.eqb c "013"); try discriminate Hc.
  repeat split; try reflexivity. exact Hs.
Qed.

(** A plain field followed by a comma is one field of the record. *)
Lemma read_plain_comma (f : string) :
  plainField f = true ->
  forall mode field record rest,
    mode = FieldStart \/ mode = NonEscaped ->
    readRecords mode field record (f ++ String "," rest)
    = readRecords FieldStart "" (record ++ [(field ++ f)%string])%list rest.
Proof.
  induction f as [|c f IH]; intros Hplain mode field record rest Hmode.
  - rewrite CsvExportFacts.append_nil_r.
    destruct Hmode as [-> | ->]; reflexivity.
  - apply plainField_cons in Hplain.
    destruct Hplain as (Hcomma & Hquote & Hlf & Hcr & Hplain).
    rewrite CsvExportFacts.append_cons.
    assert (Hstep : readRecords mode field record (String c (f ++ String "," rest))
                    = readRecords NonEscaped (field ++ String c "") record
                        (f ++ String "," rest)).
    { destruct Hmode as [-> | ->]; simpl;
        rewrite ?Hquote, Hcomma, Hlf, Hcr; reflexivity. }
    rewrite Hstep, (IH Hplain) by (right; reflexivity).
    rewrite CsvExportFacts.append_assoc. reflexivity.
Qed.

(** The text of an escaped field, read from just after its opening quote. *)
Lemma read_escaped (description : string) :
  forall field record rest,
    readRecords Escaped field record
      (replaceQuotes description ++ String dquote rest)
    = readRecords QuoteSeen (field ++ description) record rest.
Proof.
  induction description as [|c description IH]; intros field record rest.
  - rewrite CsvExportFacts.append_nil_r. reflexivity.
  - simpl replaceQuotes. destruct (Ascii.eqb_spec c dquote) as [->|Hc].
    + rewrite !CsvExportFacts.append_cons. simpl. rewrite IH.
      rewrite CsvExportFacts.append_assoc. reflexivity.
    + rewrite CsvExportFacts.append_cons. simpl.
      destruct (Ascii.eqb_spec c dquote) as [Hc'|_]; [contradiction|].
      rewrite IH, CsvExportFacts.append_assoc. reflexivity.
Qed.

Lemma categoryName_plain (c : ExpenseCategory) :
  plainField (categoryName c) = true.
Proof. destruct c; reflexivity. Qed.

(** Rows of three plain fields and a quoted description, each after a line
    feed, read from the end of the line before them. *)
Lemma read_rows (rows : list (string * string * string * string)) :
  (forall a b c d, In (a, b, c, d) rows ->
     plainField a = true /\ plainField b = true /\ plainField c = true) ->
  forall mode field record,
    mode = NonEscaped \/ mode = QuoteSeen ->
    readRecords mode field record (appendRows (List.map rowText rows))
    = (record ++ [field])%list :: List.map rowFields rows.
Proof.
  induction rows as [|[[[a b] c] d] rows IH]; intros Hplain mode field record Hmode.
  - destruct Hmode as [-> | ->]; reflexivity.
  - destruct (Hplain a b c d (or_introl eq_refl)) as (Ha & Hb & Hc).
    change (appendRows (List.map rowText ((a, b, c, d) :: rows)))
      with (String "010"
              (rowText (a, b, c, d) ++ appendRows (List.map rowText rows))).
    assert (Hline : readRecords mode field record
                      (String "010"
                         (rowText (a, b, c, d)
                          ++ appendRows (List.map rowText rows)))
                    = (record ++ [field])%list
                      :: readRecords FieldStart "" []
                           (rowText (a, b, c, d)
                            ++ appendRows (List.map rowText rows))).
    { destruct Hmode as [-> | ->]; reflexivity. }
    rewrite Hline. f_equal.
    unfold rowText, quoteDescription.
    rewrite !CsvExportFacts.append_assoc.
    change ("," ++ ?x) with (String "," x).
    rewrite (read_plain_comma _ Ha) by (left; reflexivity).
    change ("," ++ ?x) with (String "," x).
    rewrite (read_plain_comma _ Hb) by (left; reflexivity).
    change ("," ++ ?x) with (String "," x).
    rewrite (read_plain_comma _ Hc) by (left; reflexivity).
    rewrite CsvExportFacts.append_cons.
    change (readRecords FieldStart "" ?r (String dquote ?x))
      with (readRecords Escaped "" r x).
    rewrite CsvExportFacts.append_assoc, CsvExportFacts.append_cons.
    rewrite read_escaped.
    rewrite IH; [reflexivity| |right; reflexivity].
    intros a' b' c' d' Hin. apply (Hplain a' b' c' d'). right. exact Hin.
Qed.

Lemma read_header (rest : string) :
  readRecords FieldStart "" [] ("Date,Category,Amount,Description" ++ rest)
  = readRecords NonEscaped "Description" ["Date"; "Category"; "Amount"] rest.
Proof. reflexivity. Qed.

(** X20: Reading the export modal's CSV back: when no date and no printed amount
    contains a comma, a double quote or a line break, an RFC 4180 reader
    gets the header record and then, for each expense in order, the record
    of its date, category, printed amount and description, the description
    exactly as entered. *)
Theorem generateCSV_reads_back (numberToString : float -> string)
    (expenses : list (Expense float)) :
  (forall expense, In expense expenses ->
     plainField (date expense) = true
     /\ plainField (numberToString (amount expense)) = true) ->
  readCSV (generateCSV numberToString expenses)
  = ["Date"; "Category"; "Amount"; "Description"]
    :: List.map (modalFields numberToString) expenses.
Proof.
  intros Hplain. rewrite CsvExportFacts.generateCSV_rows. unfold readCSV.
  rewrite read_header.
  replace (List.map (modalRow numberToString) expenses)
    with (List.map rowText
            (List.map (fun expense =>
                         (date expense, categoryName (category expense),
                          numberToString (amount expense), description expense))
               expenses))
    by (rewrite List.map_map; reflexivity).
  rewrite read_rows; [| |left; reflexivity].
  - rewrite List.map_map. reflexivity.
  - intros a b c d Hin. apply List.in_map_iff in Hin.
    destruct Hin as (expense & [= <- <- <- <-] & Hin).
    destruct (Hplain expense Hin) as [Hdate Hamount].
    split; [exact Hdate|]. split; [apply categoryName_plain|exact Hamount].
Qed.

Lemma generateCSV_reads_back_witness :
  readCSV
    (generateCSV (fun _ => "12.5")
       [mkExpense "1" "2024-01-15" 12.5%float Food
          ("tea, " ++ String dquote ("green" ++ String dquote "")) "t1" "t1"])
  = ["Date"; "Category"; "Amount"; "Description"]
    :: List.map (modalFields (fun _ => "12.5"))
         [mkExpense "1" "2024-01-15" 12.5%float Food
            ("tea, " ++ String dquote ("green" ++ String dquote "")) "t1" "t1"].
Proof.
  apply (generateCSV_reads_back (fun _ => "12.5")
           [mkExpense "1" "2024-01-15" 12.5%float Food
              ("tea, " ++ String dquote ("green" ++ String dquote "")) "t1" "t1"]).
  intros expense [<-|[]]. split; reflexivity.
Defined.

Lemma read_header_gbp (rest : string) :
  readRecords FieldStart "" [] ("Date,Category,Amount (GBP),Description" ++ rest)
  = readRecords NonEscaped "Description" ["Date"; "Category"; "Amount (GBP)"] rest.
Proof. reflexivity. Qed.

Lemma mapM_exportRow (toFixed2 : float -> string)
    (formatDate : string -> option string) (expenses : list (Expense float))
    (rows : list string) :
  mapM (exportRow toFixed2 formatDate) expenses = Some rows ->
  rows
  = List.map rowText
      (List.map (fun expense =>
                   (default "" (formatDate (date expense)),
                    categoryName (category expense),
                    toFixed2 (amount expense), description expense))
         expenses)
  /\ forall expense, In expense expenses -> is_Some (formatDate (date expense)).
Proof.
  intros Hrows. apply mapM_Some_1 in Hrows.
  induction Hrows as [|expense row expenses rows Hrow _ [IHrows IHdates]].
  - split; [reflexivity|]. intros e [].
  - unfold exportRow in Hrow.
    destruct (formatDate (date expense)) as [formatted|] eqn:Hdate;
      [|discriminate Hrow].
    split.
    + assert (Hr : row = rowText (formatted, categoryName (category expense),
                                    toFixed2 (amount expense),
                                    description expense))
        by (injection Hrow as <-; reflexivity).
      cbn [List.map]. rewrite Hdate, <- IHrows, Hr. reflexivity.
    + intros e [<-|He]; [rewrite Hdate; eexists; reflexivity|apply IHdates, He].
Qed.

(** X21: Reading the one-click export's CSV back: when no formatted date and no
    printed amount contains a comma, a double quote or a line break, an RFC
    4180 reader gets the header record and then, for each expense in order,
    the record of its formatted date, category, two-decimal amount and
    description, the description exactly as entered. *)
Theorem exportToCSV_reads_back (toFixed2 : float -> string)
    (formatDate : string -> option string) (expenses : list (Expense float))
    (csv : string) :
  exportToCSV toFixed2 formatDate expenses = Some csv ->
  (forall expense formatted, In expense expenses ->
     formatDate (date expense) = Some formatted ->
     plainField formatted = true
     /\ plainField (toFixed2 (amount expense)) = true) ->
  readCSV csv
  = ["Date"; "Category"; "Amount (GBP)"; "Description"]
    :: List.map (fun expense =>
                   [default "" (formatDate (date expense));
                    categoryName (category expense);
                    toFixed2 (amount expense); description expense])
         expenses.
Proof.
  intros Hcsv Hplain.
  destruct expenses as [|expense expenses]; [discriminate Hcsv|].
  rewrite CsvExportFacts.exportToCSV_nonempty in Hcsv.
  destruct (mapM (exportRow toFixed2 formatDate) (expense :: expenses))
    as [rows|] eqn:Hrows; [|discriminate Hcsv].
  replace csv
    with (join newline ("Date,Category,Amount (GBP),Description" :: rows))
    by congruence.
  destruct (mapM_exportRow _ _ _ _ Hrows) as [-> Hdates].
  rewrite CsvExportFacts.join_header. unfold readCSV.
  rewrite read_header_gbp, read_rows; [| |left; reflexivity].
  - rewrite List.map_map. reflexivity.
  - intros a b c d Hin. apply List.in_map_iff in Hin.
    destruct Hin as (e & [= <- <- <- <-] & Hin).
    destruct (Hdates e Hin) as [formatted Hf]. rewrite Hf. simpl.
    destruct (Hplain e formatted Hin Hf) as [Hd Ha].
    split; [exact Hd|]. split; [apply categoryName_plain|exact Ha].
Qed.

Lemma exportToCSV_reads_back_witness :
  readCSV
    ("Date,Category,Amount (GBP),Description"
     ++ String "010"
          ("15/01/2024,Food,12.50,"
           ++ String dquote ("tea, green" ++ String dquote "")))
  = ["Date"; "Category"; "Amount (GBP)"; "Description"]
    :: List.map (fun expense =>
                   [default "" ((fun _ => Some "15/01/2024") (date expense));
                    categoryName (category expense);
                    (fun _ => "12.50") (amount expense); description expense])
         [mkExpense "1" "2024-01-15" 12.5%float Food "tea, green" "t1" "t1"].
Proof.
  apply (exportToCSV_reads_back (fun _ => "12.50") (fun _ => Some "15/01/2024")
           [mkExpense "1" "2024-01-15" 12.5%float Food "tea, green" "t1" "t1"]).
  - reflexivity.
  - intros expense formatted [<-|[]] [= <-]. split; reflexivity.
Defined.

End CsvExportMore.

(** ** The export modal's filter *)

Module ExportModalFacts.
Import ExportModal.

#[local] Set Warnings "-clear-no-such-hyp".

Lemma selectAllCategories_all (c : ExpenseCategory) : c ∈ selectAllCategories.
Proof.
  unfold selectAllCategories, CATEGORIES. apply elem_of_list_to_set.
  destruct c; set_solver.
Qed.

(** X22: The modal opens with no dates and every category selected; with that
    filter every expense is exported, in the order given. *)
Theorem default_filter_keeps_all (dateValue : string -> option Z)
    (expenses : list (Expense float)) :
  filteredExpenses dateValue "" "" selectAllCategories expenses = expenses.
Proof.
  unfold filteredExpenses.
  apply List.forallb_filter_id, List.forallb_forall. intros expense _.
  unfold passesFilter. simpl.
  apply bool_decide_eq_true. apply selectAllCategories_all.
Qed.

(** X23: An expense is exported exactly when it is in the list, its category is
    selected, and it is not before the start date or after the end date,
    each bound counting only when its text is not empty.  An expense whose
    date does not parse is dropped as soon as one bound is set. *)
Theorem filteredExpenses_membership (dateValue : string -> option Z)
    (startDate endDate : string) (selectedCategories : gset ExpenseCategory)
    (expenses : list (Expense float)) (expense : Expense float) :
  (In expense (filteredExpenses dateValue startDate endDate selectedCategories expenses)
   <-> In expense expenses
       /\ category expense ∈ selectedCategories
       /\ (startDate = ""
           \/ exists t s, dateValue (date expense) = Some t
                          /\ dateValue startDate = Some s /\ (s <= t)%Z)
       /\ (endDate = ""
           \/ exists t e, dateValue (date expense) = Some t
                          /\ dateValue endDate = Some e /\ (t <= e)%Z))
  /\ (dateValue (date expense) = None -> startDate <> "" \/ endDate <> "" ->
      ~ In expense
          (filteredExpenses dateValue startDate endDate selectedCategories expenses)).
Proof.
  assert (Hbound_ge : forall bound,
            negb (truthy bound) || dateGe (dateValue (date expense)) (dateValue bound)
            = true
            <-> bound = ""
                \/ exists t s, dateValue (date expense) = Some t
                               /\ dateValue bound = Some s /\ (s <= t)%Z).
  { intros bound. unfold truthy, dateGe.
    destruct (String.eqb_spec bound "") as [->|Hne]; simpl.
    - split; [left; reflexivity|reflexivity].
    - destruct (dateValue (date expense)) as [t|], (dateValue bound) as [s|].
      + rewrite Z.leb_le. split.
        * intros Hle. right. exists t, s. auto.
        * intros [He|(t' & s' & [= <-] & [= <-] & Hle)]; [contradiction|exact Hle].
      + split; [discriminate|].
        intros [He|(t' & s' & _ & Hs & _)]; [contradiction|discriminate Hs].
      + split; [discriminate|].
        intros [He|(t' & s' & Ht & _)]; [contradiction|discriminate Ht].
      + split; [discriminate|].
        intros [He|(t' & s' & Ht & _)]; [contradiction|discriminate Ht]. }
  assert (Hbound_le : forall bound,
            negb (truthy bound) || dateLe (dateValue (date expense)) (dateValue bound)
            = true
            <-> bound = ""
                \/ exists t e, dateValue (date expense) = Some t
                               /\ dateValue bound = Some e /\ (t <= e)%Z).
  { intros bound. unfold truthy, dateLe.
    destruct (String.eqb_spec bound "") as [->|Hne]; simpl.
    - split; [left; reflexivity|reflexivity].
    - destruct (dateValue (date expense)) as [t|], (dateValue bound) as [e|].
      + rewrite Z.leb_le. split.
        * intros Hle. right. exists t, e. auto.
        * intros [He|(t' & e' & [= <-] & [= <-] & Hle)]; [contradiction|exact Hle].
      + split; [discriminate|].
        intros [He|(t' & e' & _ & Hs & _)]; [contradiction|discriminate Hs].
      + split; [discriminate|].
        intros [He|(t' & e' & Ht & _)]; [contradiction|discriminate Ht].
      + split; [discriminate|].
        intros [He|(t' & e' & Ht & _)]; [contradiction|discriminate Ht]. }
  assert (Hmem : In expense
                   (filteredExpenses dateValue startDate endDate selectedCategories
                      expenses)
                 <-> In expense expenses
                     /\ category expense ∈ selectedCategories
                     /\ (startDate = ""
                         \/ exists t s, dateValue (date expense) = Some t
                                        /\ dateValue startDate = Some s /\ (s <= t)%Z)
                     /\ (endDate = ""
                         \/ exists t e, dateValue (date expense) = Some t
                                        /\ dateValue endDate = Some e /\ (t <= e)%Z)).
  { unfold filteredExpenses. rewrite List.filter_In. unfold passesFilter.
    rewrite !andb_true_iff, bool_decide_eq_true, Hbound_ge, Hbound_le. tauto. }
  split; [exact Hmem|].
  intros Hinvalid Hbound Hin. apply Hmem in Hin.
  destruct Hin as (_ & _ & Hstart & Hend).
  destruct Hbound as [Hne|Hne].
  - destruct Hstart as [He|(t & s & Ht & _)]; [contradiction|].
    rewrite Hinvalid in Ht. discriminate Ht.
  - destruct Hend as [He|(t & e & Ht & _)]; [contradiction|].
    rewrite Hinvalid in Ht. discriminate Ht.
Qed.

(** X24: Clicking a category twice restores the selection; one click changes
    whether that category is selected and no other. *)
Theorem toggleCategory_twice (selectedCategories : gset ExpenseCategory)
    (category other : ExpenseCategory) :
  toggleCategory (toggleCategory selectedCategories category) category
    = selectedCategories
  /\ (category ∈ toggleCategory selectedCategories category
      <-> category ∉ selectedCategories)
  /\ (other <> category ->
      (other ∈ toggleCategory selectedCategories category
       <-> other ∈ selectedCategories)).
Proof.
  unfold toggleCategory.
  destruct (decide (category ∈ selectedCategories)) as [Hin|Hout].
  - split; [|split].
    + destruct (decide (category ∈ selectedCategories ∖ {[category]}))
        as [Hin'|_]; [set_solver|].
      apply set_eq. intros x. rewrite elem_of_union, elem_of_difference,
        elem_of_singleton.
      destruct (decide (x = category)) as [->|Hne]; tauto.
    + set_solver.
    + intros Hne. set_solver.
  - split; [|split].
    + destruct (decide (category ∈ selectedCategories ∪ {[category]}))
        as [_|Hout']; [|set_solver].
      set_solver.
    + set_solver.
    + intros Hne. set_solver.
Qed.

End ExportModalFacts.

(** ** The export hub's schedules *)

Module ExportHubFacts.
Import ExportHub.

(** X25: Toggling a schedule twice gives back the list of schedules; one toggle
    keeps the order and the ids, flips [enabled] on every schedule with the
    id and leaves the other schedules as they are. *)
Theorem toggleSchedule_twice (id0 : string)
    (scheduledExports : list ScheduledExport) :
  toggleSchedule id0 (toggleSchedule id0 scheduledExports) = scheduledExports
  /\ List.map schedule_id (toggleSchedule id0 scheduledExports)
     = List.map schedule_id scheduledExports
  /\ (forall index schedule, scheduledExports !! index = Some schedule ->
        exists toggled,
          toggleSchedule id0 scheduledExports !! index = Some toggled
          /\ (schedule_id schedule <> id0 -> toggled = schedule)
          /\ (schedule_id schedule = id0 ->
              enabled toggled = negb (enabled schedule))).
Proof.
  unfold toggleSchedule. split; [|split].
  - rewrite List.map_map.
    transitivity (List.map (fun schedule : ScheduledExport => schedule)
                    scheduledExports); [|apply List.map_id].
    apply List.map_ext. intros [i t f d n e]. simpl.
    destruct (String.eqb i id0) eqn:Hi; simpl; rewrite Hi; [|reflexivity].
    rewrite negb_involutive. reflexivity.
  - rewrite List.map_map. apply List.map_ext. intros schedule.
    destruct (String.eqb (schedule_id schedule) id0); reflexivity.
  - intros index schedule Hlook.
    eexists. split.
    + change (List.map ?f scheduledExports) with (f <$> scheduledExports).
      rewrite list_lookup_fmap, Hlook. reflexivity.
    + destruct (String.eqb_spec (schedule_id schedule) id0) as [He|Hne].
      * split; [contradiction|reflexivity].
      * split; [reflexivity|contradiction].
Qed.

End ExportHubFacts.
